(** * Friend-relationship handlers of [server.js]

    A shallow embedding of the Express handlers of [src/server.js] that
    read or write the relationship data (the [User] documents and the
    [FriendRequest] collection), followed by the properties of the
    friend-request workflow that hold, or fail, on them; then login and
    the blink routes, and what holds of whole sessions.

    Conventions of the embedding
    - An identifier ([_id], a route parameter, [fromUser]/[toUser] of a
      body) is a well-formed Mongo [ObjectId] in its canonical rendering;
      it is modelled by the number its twelve bytes encode, so that string
      equality of renderings is equality of numbers.  Such a field of a
      body that is absent is [None].
    - The [status] of a [PUT] body is a JSON string.  A body without
      [status], or with [null], is outside the model: the first [PUT]
      handler would save it as an unset path, which the documents of
      this model cannot hold.
    - A collection is a finite map from [_id] to document; a [find]
      lists it in the order of the map, and the statements about lists
      of requests do not depend on that order.
    - Every [await] on a Mongoose operation is a round trip to the store
      which may reject; which round trips reject is an input of the model
      (the list [faults] of the [World]).  An exception unwinds to the
      handler's [catch], which answers 500.  A [populate] counts as one
      round trip, also when it has nothing to fetch.
    - The timestamps of [friendRequestSchema] and Mongoose's version key
      are not modelled.
    - The [Blink] collection is passed beside the [World]: the
      friend-request handlers never touch it, and the blink routes read
      the users only to populate [userId]. *)

From Stdlib Require Import Ascii.
From stdpp Require Import base option list gmap strings fin_maps sorting relations.

(** ** Schemas and models (server.js, lines 61-84) *)

Abbreviation ObjectId := N.

Module userSchema.

Record doc := mk {
  name : string;
  email : string;
  password : string;
  profileImage : option string;
  friends : list ObjectId;
  incomingRequests : list ObjectId;
  outgoingRequests : list ObjectId
}.

Definition set_friends (l : list ObjectId) (u : doc) : doc :=
  mk (name u) (email u) (password u) (profileImage u)
     l (incomingRequests u) (outgoingRequests u).

Definition set_incomingRequests (l : list ObjectId) (u : doc) : doc :=
  mk (name u) (email u) (password u) (profileImage u)
     (friends u) l (outgoingRequests u).

Definition set_outgoingRequests (l : list ObjectId) (u : doc) : doc :=
  mk (name u) (email u) (password u) (profileImage u)
     (friends u) (incomingRequests u) l.

End userSchema.

(** [status: { enum: ['pending', 'accepted', 'rejected'], default: 'pending' }] *)
Inductive RequestStatus := pending | accepted | rejected.

Module friendRequestSchema.

Record doc := mk {
  fromUser : ObjectId;
  toUser : ObjectId;
  status : RequestStatus
}.

Definition set_status (s : RequestStatus) (r : doc) : doc :=
  mk (fromUser r) (toUser r) s.

End friendRequestSchema.

#[global] Instance RequestStatus_eq_dec : EqDecision RequestStatus.
Proof. solve_decision. Defined.

#[global] Instance userSchema_doc_eq_dec : EqDecision userSchema.doc.
Proof. solve_decision. Defined.

#[global] Instance friendRequestSchema_doc_eq_dec :
  EqDecision friendRequestSchema.doc.
Proof. solve_decision. Defined.

(** The enum validator of the [status] path: the stored value of a string. *)
Definition enum_status (s : string) : option RequestStatus :=
  if decide (s = "pending") then Some pending
  else if decide (s = "accepted") then Some accepted
  else if decide (s = "rejected") then Some rejected
  else None.

(** The persisted state: the two collections the handlers touch. *)
Record Store := mkStore {
  users : gmap ObjectId userSchema.doc;
  friendrequests : gmap ObjectId friendRequestSchema.doc
}.

Definition with_users (f : gmap ObjectId userSchema.doc →
                           gmap ObjectId userSchema.doc) (s : Store) : Store :=
  mkStore (f (users s)) (friendrequests s).

Definition with_friendrequests
    (f : gmap ObjectId friendRequestSchema.doc →
         gmap ObjectId friendRequestSchema.doc) (s : Store) : Store :=
  mkStore (users s) (f (friendrequests s)).

(** ** Asynchronous computations over a store that may fail *)

Inductive Exn := StorageUnavailable | TypeError | ValidationError | DuplicateKey.

Inductive Outcome (A : Type) :=
| Resolved (a : A)
| Rejected (e : Exn).
Arguments Resolved {A} a.
Arguments Rejected {A} e.

(** The store together with the fate of the coming round trips: [true] at
    the head of [faults] makes the next round trip reject; an exhausted
    list means no further failure. *)
Record World := mkWorld {
  db : Store;
  faults : list bool
}.

Record Async (A : Type) : Type := mkAsync {
  run : World → Outcome A * World
}.
Arguments mkAsync {A} run.
Arguments run {A} a w.

#[global] Instance Async_ret : MRet Async :=
  λ A a, mkAsync (λ w, (Resolved a, w)).

(** [await p] followed by the rest of the function body: a rejection skips
    the rest. *)
#[global] Instance Async_bind : MBind Async :=
  λ A B k p, mkAsync (λ w,
    match run p w with
    | (Resolved a, w') => run (k a) w'
    | (Rejected e, w') => (Rejected e, w')
    end).

Definition throw {A} (e : Exn) : Async A := mkAsync (λ w, (Rejected e, w)).

(** One round trip to the store. *)
Definition roundTrip : Async unit := mkAsync (λ w,
  (match faults w with
   | true :: _ => Rejected StorageUnavailable
   | _ => Resolved tt
   end,
   mkWorld (db w) (tail (faults w)))).

Definition query {A} (f : Store → A) : Async A :=
  _ ← roundTrip; mkAsync (λ w, (Resolved (f (db w)), w)).

Definition update (f : Store → Store) : Async unit :=
  _ ← roundTrip; mkAsync (λ w, (Resolved tt, mkWorld (f (db w)) (faults w))).

(** [Promise.all([p, q])]: both operations have been started, so [q] runs
    whatever becomes of [p]; the result rejects when either does. *)
Definition Promise_all {A B} (p : Async A) (q : Async B) : Async (A * B) :=
  mkAsync (λ w,
    let '(ra, w1) := run p w in
    let '(rb, w2) := run q w1 in
    (match ra, rb with
     | Resolved a, Resolved b => Resolved (a, b)
     | Rejected e, _ => Rejected e
     | _, Rejected e => Rejected e
     end, w2)).

(** ** Responses *)

(** [populate(path, 'name email profileImage')]: the referenced user with
    the selected fields ([simage] stays [None] when [profileImage] is not
    selected). *)
Record UserSummary := mkSummary {
  sid : ObjectId;
  sname : string;
  semail : string;
  simage : option string
}.

(** A user document without its password and with [friends] populated. *)
Record PopulatedUser := mkPopulated {
  pid : ObjectId;
  pname : string;
  pemail : string;
  pimage : option string;
  pfriends : list UserSummary;
  pincomingRequests : list ObjectId;
  poutgoingRequests : list ObjectId
}.

(** The JSON bodies the handlers send. *)
Inductive Json :=
| JMessage (message : string)
| JMessageUser (message : string) (_id : ObjectId) (user : userSchema.doc)
| JMessageRequestId (message : string) (requestId : ObjectId)
| JStatus (status : string)
| JRequests (l : list (ObjectId * friendRequestSchema.doc * option UserSummary))
| JUsers (l : list UserSummary)
| JMessageStatusUser (message status : string) (user : option PopulatedUser).

Record Response := mkResponse {
  code : nat;
  body : Json
}.

(** [res.status(c).json(j)] and [res.json(j)]. *)
Definition res_status_json (c : nat) (j : Json) : Async Response :=
  mret (mkResponse c j).

Definition res_json (j : Json) : Async Response := res_status_json 200 j.

(** [try { body } catch (err) { res.status(500).json({ message }) }] *)
Definition try_catch (body : Async Response) (message : string) :
    World → Response * World :=
  λ w,
    match run body w with
    | (Resolved r, w') => (r, w')
    | (Rejected _, w') => (mkResponse 500 (JMessage message), w')
    end.

(** ** Array helpers *)

(** [arr.includes(id)] on a Mongoose array of ObjectIds. *)
Definition includes (x : ObjectId) (l : list ObjectId) : bool :=
  bool_decide (x ∈ l).

(** [arr.some(id => id.toString() === x.toString())] *)
Definition some_eq (x : ObjectId) (l : list ObjectId) : bool :=
  existsb (λ id, bool_decide (id = x)) l.

(** [arr.filter(id => id.toString() !== x)] *)
Definition filter_ne (x : ObjectId) (l : list ObjectId) : list ObjectId :=
  filter (λ id, id ≠ x) l.

(** [arr.push(x)] *)
Definition push (x : ObjectId) (l : list ObjectId) : list ObjectId := l ++ [x].

(** The update operator [$addToSet]. *)
Definition addToSet (x : ObjectId) (l : list ObjectId) : list ObjectId :=
  if includes x l then l else l ++ [x].

(** ** The Mongoose models [User] and [FriendRequest] *)

(** The first document of a collection that satisfies a filter. *)
Definition first_match {D} (p : D → bool) (m : gmap ObjectId D) :
    option (ObjectId * D) :=
  head (filter (λ kd, p kd.2 = true) (map_to_list m)).

Module User.

(** [new User({ name, email, password })]: the arrays default to [[]]. *)
Definition new (name email password : string) : userSchema.doc :=
  userSchema.mk name email password None [] [] [].

Definition findById (id : ObjectId) : Async (option userSchema.doc) :=
  query (λ s, users s !! id).

(** [User.findById(id)] for an [id] that may be [undefined]. *)
Definition findById_opt (id : option ObjectId) : Async (option userSchema.doc) :=
  query (λ s, id ≫= λ id, users s !! id).

(** [User.findOne({ email })] *)
Definition findOne_email (email : string) :
    Async (option (ObjectId * userSchema.doc)) :=
  query (λ s, first_match (λ u, bool_decide (userSchema.email u = email)) (users s)).

(** [newUser.save()] of a new document: the [required] validators run
    first (a required string must be non-empty), then the insert. *)
Definition create (id : ObjectId) (u : userSchema.doc) : Async unit :=
  if bool_decide (userSchema.name u = "" ∨ userSchema.email u = ""
                  ∨ userSchema.password u = "")
  then throw ValidationError
  else
    _ ← roundTrip;
    mkAsync (λ w,
      match users (db w) !! id with
      | Some _ => (Rejected DuplicateKey, w)
      | None => (Resolved tt, mkWorld (with_users <[id := u]> (db w)) (faults w))
      end).

(** [doc.save()] of a loaded document: the modified paths, given as the
    function [modified] that sets them, are written to the stored
    document. *)
Definition save (id : ObjectId) (modified : userSchema.doc → userSchema.doc) :
    Async unit :=
  update (with_users (alter modified id)).

(** [User.findByIdAndUpdate(id, { $addToSet: { friends: x } })]: no error
    when no document has this [_id]. *)
Definition findByIdAndUpdate_addToSet_friends (id x : ObjectId) : Async unit :=
  update (with_users
            (alter (λ u, userSchema.set_friends (addToSet x (userSchema.friends u)) u) id)).

(** [.populate(path, 'name email')] and
    [.populate(path, 'name email profileImage')] of one reference. *)
Definition summary (withImage : bool) (s : Store) (id : ObjectId) :
    option UserSummary :=
  (λ u, mkSummary id (userSchema.name u) (userSchema.email u)
          (if withImage then userSchema.profileImage u else None))
    <$> users s !! id.

(** Population of an array of references: one more query; references to
    missing documents are dropped. *)
Definition populate (withImage : bool) (ids : list ObjectId) :
    Async (list UserSummary) :=
  query (λ s, omap (summary withImage s) ids).

End User.

Module FriendRequest.

(** [new FriendRequest({ fromUser, toUser })]: [status] defaults to
    ['pending']. *)
Definition new (fromUser toUser : ObjectId) : friendRequestSchema.doc :=
  friendRequestSchema.mk fromUser toUser pending.

Definition findById (id : ObjectId) : Async (option friendRequestSchema.doc) :=
  query (λ s, friendrequests s !! id).

(** [FriendRequest.findOne({ fromUser, toUser, status: 'pending' })] *)
Definition findOne_pending (fromUser toUser : ObjectId) :
    Async (option (ObjectId * friendRequestSchema.doc)) :=
  query (λ s,
    first_match
      (λ r, bool_decide (friendRequestSchema.fromUser r = fromUser
                         ∧ friendRequestSchema.toUser r = toUser
                         ∧ friendRequestSchema.status r = pending))
      (friendrequests s)).

(** [FriendRequest.find({ toUser, status: 'pending' })] *)
Definition find_pending_to (toUser : ObjectId) :
    Async (list (ObjectId * friendRequestSchema.doc)) :=
  query (λ s,
    filter (λ kd, friendRequestSchema.toUser kd.2 = toUser
                  ∧ friendRequestSchema.status kd.2 = pending)
           (map_to_list (friendrequests s))).

(** [newRequest.save()] of a new document. *)
Definition create (id : ObjectId) (r : friendRequestSchema.doc) : Async unit :=
  _ ← roundTrip;
  mkAsync (λ w,
    match friendrequests (db w) !! id with
    | Some _ => (Rejected DuplicateKey, w)
    | None =>
        (Resolved tt, mkWorld (with_friendrequests <[id := r]> (db w)) (faults w))
    end).

(** [request.save()] after [request.status = s]. *)
Definition save_status (id : ObjectId) (s : RequestStatus) : Async unit :=
  update (with_friendrequests (alter (friendRequestSchema.set_status s) id)).

Definition findByIdAndDelete (id : ObjectId) : Async unit :=
  update (with_friendrequests (delete id)).

(** [.populate('fromUser', 'name email')] over the result of a [find]. *)
Definition populate_fromUser (l : list (ObjectId * friendRequestSchema.doc)) :
    Async (list (ObjectId * friendRequestSchema.doc * option UserSummary)) :=
  query (λ s,
    (λ kd, (kd, User.summary false s (friendRequestSchema.fromUser kd.2))) <$> l).

End FriendRequest.

(** ** Route handlers, in the order [server.js] registers them *)

(** [POST /api/signup] (lines 122-135).  A field the body lacks is the
    empty string here: both fail the [required] validator. *)
Definition post_signup (newId : ObjectId) (name email password : string) :
    World → Response * World :=
  try_catch
    (existingUser ← User.findOne_email email;
     if existingUser is Some _ then
       res_status_json 400 (JMessage "User already exists")
     else
       let newUser := User.new name email password in
       _ ← User.create newId newUser;
       res_status_json 201 (JMessageUser "User created successfully" newId newUser))
    "Error creating user".

(** [GET /api/friend-requests/check/:fromUserId/:toUserId] (lines 206-238) *)
Definition get_friend_requests_check (fromUserId toUserId : ObjectId) :
    World → Response * World :=
  try_catch
    ('(sender, receiver) ←
        Promise_all (User.findById fromUserId) (User.findById toUserId);
     match sender, receiver with
     | Some sender, Some receiver =>
         if includes toUserId (userSchema.friends sender) then
           res_json (JStatus "friends")
         else if includes toUserId (userSchema.outgoingRequests sender)
                 || includes fromUserId (userSchema.incomingRequests receiver) then
           res_json (JStatus "pending")
         else
           res_json (JStatus "none")
     | _, _ => res_status_json 404 (JMessage "User not found")
     end)
    "Error checking friend request status".

(** [POST /api/friend-request], first registration (lines 241-277).
    [sender.friends] on a missing sender is the [TypeError] of reading a
    property of [null]. *)
Definition post_friend_request_1 (newId : ObjectId)
    (fromUser toUser : option ObjectId) : World → Response * World :=
  try_catch
    (match fromUser, toUser with
     | Some fromUser, Some toUser =>
         if decide (fromUser = toUser) then
           res_status_json 400 (JMessage "Cannot send request to yourself")
         else
           sender ← User.findById fromUser;
           match sender with
           | None => throw TypeError
           | Some sender =>
               if includes toUser (userSchema.friends sender) then
                 res_status_json 400 (JMessage "Already friends")
               else
                 existingRequest ← FriendRequest.findOne_pending fromUser toUser;
                 if existingRequest is Some _ then
                   res_status_json 400 (JMessage "Friend request already sent")
                 else
                   _ ← FriendRequest.create newId (FriendRequest.new fromUser toUser);
                   res_status_json 201
                     (JMessageRequestId "Friend request sent successfully" newId)
           end
     | _, _ =>
         res_status_json 400 (JMessage "Both fromUser and toUser are required")
     end)
    "Error sending friend request".

(** [DELETE /api/friend-request/:requestId] (lines 280-295) *)
Definition delete_friend_request (requestId : ObjectId) :
    World → Response * World :=
  try_catch
    (request ← FriendRequest.findById requestId;
     match request with
     | None => res_status_json 404 (JMessage "Friend request not found")
     | Some request =>
         if decide (friendRequestSchema.status request ≠ pending) then
           res_status_json 400 (JMessage "Only pending requests can be cancelled")
         else
           _ ← FriendRequest.findByIdAndDelete requestId;
           res_json (JMessage "Friend request cancelled")
     end)
    "Error cancelling friend request".

(** [GET /api/friend-requests/:userId], first registration (lines 298-310) *)
Definition get_friend_requests_1 (userId : ObjectId) : World → Response * World :=
  try_catch
    (found ← FriendRequest.find_pending_to userId;
     requests ← FriendRequest.populate_fromUser found;
     res_json (JRequests requests))
    "Error fetching friend requests".

(** [PUT /api/friend-request/:requestId], first registration (lines
    313-333).  The body carries a [status] string; the enum validator of
    [request.save()] rejects a string outside the enum before anything is
    written. *)
Definition put_friend_request_1 (requestId : ObjectId) (status : string) :
    World → Response * World :=
  try_catch
    (request ← FriendRequest.findById requestId;
     match request with
     | None => res_status_json 404 (JMessage "Friend request not found")
     | Some request =>
         match enum_status status with
         | None => throw ValidationError
         | Some s =>
             _ ← FriendRequest.save_status requestId s;
             _ ← (if decide (status = "accepted") then
                    _ ← User.findByIdAndUpdate_addToSet_friends
                          (friendRequestSchema.fromUser request)
                          (friendRequestSchema.toUser request);
                    User.findByIdAndUpdate_addToSet_friends
                      (friendRequestSchema.toUser request)
                      (friendRequestSchema.fromUser request)
                  else mret tt);
             res_json (JMessage ("Friend request " +:+ status))
         end
     end)
    "Error updating friend request".

(** [POST /api/friend-request], second registration (lines 336-371).
    [findById(undefined)] finds no document, so a body without one of the
    identifiers is answered 404. *)
Definition post_friend_request_2 (fromUser toUser : option ObjectId) :
    World → Response * World :=
  try_catch
    ('(sender, receiver) ←
        Promise_all (User.findById_opt fromUser) (User.findById_opt toUser);
     match fromUser, toUser, sender, receiver with
     | Some fromUser, Some toUser, Some sender, Some receiver =>
         if includes toUser (userSchema.friends sender) then
           res_status_json 400 (JMessage "Already friends")
         else if includes toUser (userSchema.outgoingRequests sender)
                 || includes fromUser (userSchema.incomingRequests receiver) then
           res_status_json 400 (JMessage "Friend request already sent")
         else
           _ ← Promise_all
                 (User.save fromUser
                    (userSchema.set_outgoingRequests
                       (push toUser (userSchema.outgoingRequests sender))))
                 (User.save toUser
                    (userSchema.set_incomingRequests
                       (push fromUser (userSchema.incomingRequests receiver))));
           res_status_json 201 (JMessage "Friend request sent successfully")
     | _, _, _, _ => res_status_json 404 (JMessage "User not found")
     end)
    "Error sending friend request".

(** [GET /api/friend-requests/:userId], second registration (lines 374-388) *)
Definition get_friend_requests_2 (userId : ObjectId) : World → Response * World :=
  try_catch
    (user ← User.findById userId;
     match user with
     | None => res_status_json 404 (JMessage "User not found")
     | Some user =>
         incoming ← User.populate true (userSchema.incomingRequests user);
         res_json (JUsers incoming)
     end)
    "Error fetching friend requests".

(** [User.findById(id).populate('friends', 'name email profileImage')
         .select('-password')] *)
Definition findById_populated (id : ObjectId) : Async (option PopulatedUser) :=
  user ← User.findById id;
  match user with
  | None => mret None
  | Some user =>
      friends ← User.populate true (userSchema.friends user);
      mret (Some (mkPopulated id (userSchema.name user) (userSchema.email user)
                    (userSchema.profileImage user) friends
                    (userSchema.incomingRequests user)
                    (userSchema.outgoingRequests user)))
  end.

(** [PUT /api/friend-request/:requestId], second registration (lines
    391-466).  [sender._id] and [receiver._id] are [fromUser] and
    [toUser]. *)
Definition put_friend_request_2 (fromUser toUser : option ObjectId)
    (status : string) : World → Response * World :=
  try_catch
    (match fromUser, toUser with
     | Some fromUser, Some toUser =>
         '(sender, receiver) ←
            Promise_all (User.findById fromUser) (User.findById toUser);
         match sender, receiver with
         | Some sender, Some receiver =>
             let requestExists :=
               some_eq fromUser (userSchema.incomingRequests receiver)
               && some_eq toUser (userSchema.outgoingRequests sender) in
             if negb requestExists then
               res_status_json 404 (JMessage "Friend request not found")
             else
               let incomingRequests :=
                 filter_ne fromUser (userSchema.incomingRequests receiver) in
               let outgoingRequests :=
                 filter_ne toUser (userSchema.outgoingRequests sender) in
               let senderHasFriend := some_eq toUser (userSchema.friends sender) in
               let receiverHasFriend := some_eq fromUser (userSchema.friends receiver) in
               let senderFriends :=
                 if decide (status = "accepted") then
                   if negb senderHasFriend then push toUser (userSchema.friends sender)
                   else userSchema.friends sender
                 else userSchema.friends sender in
               let receiverFriends :=
                 if decide (status = "accepted") then
                   if negb receiverHasFriend then push fromUser (userSchema.friends receiver)
                   else userSchema.friends receiver
                 else userSchema.friends receiver in
               _ ← Promise_all
                     (User.save fromUser
                        (λ u, userSchema.set_friends senderFriends
                                (userSchema.set_outgoingRequests outgoingRequests u)))
                     (User.save toUser
                        (λ u, userSchema.set_friends receiverFriends
                                (userSchema.set_incomingRequests incomingRequests u)));
               updatedReceiver ← findById_populated toUser;
               res_json
                 (JMessageStatusUser
                    (if decide (status = "accepted") then "Friend request accepted"
                     else "Friend request rejected")
                    status updatedReceiver)
         | _, _ => res_status_json 404 (JMessage "User not found")
         end
     | _, _ => res_status_json 400 (JMessage "Missing user IDs")
     end)
    "Error handling friend request".

(** [GET /api/friends/:userId] (lines 469-483) *)
Definition get_friends (userId : ObjectId) : World → Response * World :=
  try_catch
    (user ← User.findById userId;
     match user with
     | None => res_status_json 404 (JMessage "User not found")
     | Some user =>
         friends ← User.populate true (userSchema.friends user);
         res_json (JUsers friends)
     end)
    "Error fetching friends".

(** [DELETE /api/friends/:userId/:friendId] (lines 506-530) *)
Definition delete_friends (userId friendId : ObjectId) : World → Response * World :=
  try_catch
    ('(user, friend) ←
        Promise_all (User.findById userId) (User.findById friendId);
     match user, friend with
     | Some user, Some friend =>
         _ ← Promise_all
               (User.save userId
                  (userSchema.set_friends (filter_ne friendId (userSchema.friends user))))
               (User.save friendId
                  (userSchema.set_friends (filter_ne userId (userSchema.friends friend))));
         res_json (JMessage "Friend removed successfully")
     | _, _ => res_status_json 404 (JMessage "User not found")
     end)
    "Error removing friend".

(** ** The application: requests and their dispatch *)

(** A request to one of the modelled routes, with its route parameters and
    the fields of its body. *)
Inductive Request :=
| POST_signup (name email password : string)
| GET_friend_requests_check (fromUserId toUserId : ObjectId)
| POST_friend_request (fromUser toUser : option ObjectId)
| DELETE_friend_request (requestId : ObjectId)
| GET_friend_requests (userId : ObjectId)
| PUT_friend_request (requestId : ObjectId) (fromUser toUser : option ObjectId)
    (status : string)
| GET_friends (userId : ObjectId)
| DELETE_friends (userId friendId : ObjectId).

(** A registered route: [Some] handler when method and path match.
    [newId] is the [_id] the driver allots to a document the handler
    creates. *)
Definition Layer : Type := ObjectId → Request → option (World → Response * World).

(** The [app.METHOD(path, handler)] calls of [server.js], top to bottom. *)
Definition layers : list Layer :=
  [ (λ newId r, if r is POST_signup name email password
                then Some (post_signup newId name email password) else None);
    (λ _ r, if r is GET_friend_requests_check fromUserId toUserId
            then Some (get_friend_requests_check fromUserId toUserId) else None);
    (λ newId r, if r is POST_friend_request fromUser toUser
                then Some (post_friend_request_1 newId fromUser toUser) else None);
    (λ _ r, if r is DELETE_friend_request requestId
            then Some (delete_friend_request requestId) else None);
    (λ _ r, if r is GET_friend_requests userId
            then Some (get_friend_requests_1 userId) else None);
    (λ _ r, if r is PUT_friend_request requestId _ _ status
            then Some (put_friend_request_1 requestId status) else None);
    (λ _ r, if r is POST_friend_request fromUser toUser
            then Some (post_friend_request_2 fromUser toUser) else None);
    (λ _ r, if r is GET_friend_requests userId
            then Some (get_friend_requests_2 userId) else None);
    (λ _ r, if r is PUT_friend_request _ fromUser toUser status
            then Some (put_friend_request_2 fromUser toUser status) else None);
    (λ _ r, if r is GET_friends userId
            then Some (get_friends userId) else None);
    (λ _ r, if r is DELETE_friends userId friendId
            then Some (delete_friends userId friendId) else None) ].

(** Express runs the first registered handler that matches; none of the
    handlers calls [next()], so a later registration of the same route is
    never reached.  The last middleware answers 404. *)
Definition app (newId : ObjectId) (r : Request) : World → Response * World :=
  match omap (λ l : Layer, l newId r) layers with
  | handler :: _ => handler
  | [] => λ w, (mkResponse 404 (JMessage "Route not found"), w)
  end.

(** A session: requests served one after the other, each with the [_id]
    allotted to it. *)
Fixpoint serve (rs : list (ObjectId * Request)) (w : World) :
    list Response * World :=
  match rs with
  | [] => ([], w)
  | (newId, r) :: rs =>
      let '(resp, w1) := app newId r w in
      let '(resps, w2) := serve rs w1 in
      (resp :: resps, w2)
  end.

(** The database before any signup, and a store on which no round trip
    is going to fail. *)
Definition empty_store : Store := mkStore ∅ ∅.

Definition reliable (s : Store) : World := mkWorld s [].

(** ** The operations of the relationship manager, as the routes serve them *)

Definition queryStatus (A B : ObjectId) : World → Response * World :=
  app 0%N (GET_friend_requests_check A B).

Definition sendRequest (newId A B : ObjectId) : World → Response * World :=
  app newId (POST_friend_request (Some A) (Some B)).

Definition cancelRequest (requestId : ObjectId) : World → Response * World :=
  app 0%N (DELETE_friend_request requestId).

(** The pair of a request record is part of the record, so the body of a
    resolution needs only the decision. *)
Definition resolveRequest (requestId : ObjectId) (decision : string) :
    World → Response * World :=
  app 0%N (PUT_friend_request requestId None None decision).

Definition removeFriendship (A B : ObjectId) : World → Response * World :=
  app 0%N (DELETE_friends A B).

Definition listFriends (A : ObjectId) : World → Response * World :=
  app 0%N (GET_friends A).

Definition listIncoming (A : ObjectId) : World → Response * World :=
  app 0%N (GET_friend_requests A).

(** ** Vocabulary of the statements *)

(** Some stored request from [A] to [B] is pending. *)
Definition pending_request (s : Store) (A B : ObjectId) : Prop :=
  ∃ id, friendrequests s !! id = Some (friendRequestSchema.mk A B pending).

(** The request [A]→[B] is marked in the embedded arrays: in [A]'s
    [outgoingRequests] or in [B]'s [incomingRequests]. *)
Definition marks_request (s : Store) (A B : ObjectId) : Prop :=
  (∃ u, users s !! A = Some u ∧ B ∈ userSchema.outgoingRequests u)
  ∨ (∃ u, users s !! B = Some u ∧ A ∈ userSchema.incomingRequests u).

(** The user collection after the two [$addToSet] updates of an
    acceptance. *)
Definition befriend (A B : ObjectId) (m : gmap ObjectId userSchema.doc) :
    gmap ObjectId userSchema.doc :=
  alter (λ u, userSchema.set_friends (addToSet A (userSchema.friends u)) u) B
    (alter (λ u, userSchema.set_friends (addToSet B (userSchema.friends u)) u) A m).

(** A request whose handler writes to the store at most once: all but an
    acceptance (three writes) and the removal of a friendship (two). *)
Definition single_write (r : Request) : bool :=
  match r with
  | PUT_friend_request _ _ _ status => bool_decide (status ≠ "accepted")
  | DELETE_friends _ _ => false
  | _ => true
  end.

(** ** Sessions used as concrete inputs *)

Definition alice : ObjectId := 1%N.
Definition bob : ObjectId := 2%N.

(** Alice and Bob have signed up; nothing else has happened. *)
Definition signed_up : World :=
  (serve [ (alice, POST_signup "alice" "alice@example.com" "a-secret");
           (bob, POST_signup "bob" "bob@example.com" "b-secret") ]
         (reliable empty_store)).2.

(** Then Alice has sent Bob a request, stored under [_id] 10. *)
Definition alice_asked_bob : World :=
  (sendRequest 10%N alice bob signed_up).2.

(** Then Bob has sent Alice one too, stored under [_id] 11. *)
Definition both_asked : World :=
  (sendRequest 11%N bob alice alice_asked_bob).2.

(** Alice's request has been accepted: the two are friends. *)
Definition befriended : World :=
  (resolveRequest 10%N "accepted" alice_asked_bob).2.


(** Bob's request to Alice as the second registration of
    [POST /api/friend-request] would write it: in the embedded arrays. *)
Definition bob_marked_alice : World :=
  (post_friend_request_2 (Some bob) (Some alice) signed_up).2.

(** The two are friends, and of the coming round trips the fourth fails. *)
Definition befriended_fourth_fails : World :=
  mkWorld (db befriended) [false; false; false; true].

(** The store after the removal of their friendship whose second save
    failed. *)
Definition half_removed : World :=
  (removeFriendship alice bob befriended_fourth_fails).2.

(** Alice has asked Bob, and of the coming round trips the third fails. *)
Definition alice_asked_bob_third_fails : World :=
  mkWorld (db alice_asked_bob) [false; false; true].

(** The documents of Alice and Bob as signup stores them. *)
Definition alice_doc : userSchema.doc :=
  User.new "alice" "alice@example.com" "a-secret".

Definition bob_doc : userSchema.doc :=
  User.new "bob" "bob@example.com" "b-secret".

(** ** Login (server.js, lines 137-149) *)

(** [User.findOne({ email, password })] *)
Definition User_findOne_credentials (email password : string) :
    Async (option (ObjectId * userSchema.doc)) :=
  query (λ s,
    first_match
      (λ u, bool_decide (userSchema.email u = email ∧ userSchema.password u = password))
      (users s)).

(** [POST /api/login], for a body that carries both strings. *)
Definition post_login (email password : string) : World → Response * World :=
  try_catch
    (user ← User_findOne_credentials email password;
     match user with
     | None => res_status_json 401 (JMessage "Invalid credentials")
     | Some (_id, user) => res_json (JMessageUser "Login successful" _id user)
     end)
    "Error logging in".

(** ** Blinks (server.js, lines 86-115 and 151-199) *)

(** Text is a sequence of characters, each counted once: [length] is the
    JavaScript [length] for text whose characters are single code units. *)

(** [s.split(sep)] for a one-character separator: the pieces between the
    occurrences of [sep], empty pieces included. *)
Fixpoint split_on (sep : Ascii.ascii) (s : string) : list string :=
  match s with
  | EmptyString => [EmptyString]
  | String c s' =>
      if decide (c = sep) then EmptyString :: split_on sep s'
      else
        match split_on sep s' with
        | piece :: pieces => String c piece :: pieces
        | [] => [String c EmptyString]
        end
  end.

(** The number of occurrences of a character. *)
Fixpoint occurrences (c : Ascii.ascii) (s : string) : nat :=
  match s with
  | EmptyString => 0
  | String c' s' => (if decide (c' = c) then 1 else 0) + occurrences c s'
  end.

(** [s.startsWith(p)] *)
Definition startsWith (p s : string) : bool := String.prefix p s.

(** [mediaType: { enum: ['image', 'video', 'none', null] }], as the handler
    sets it. *)
Inductive MediaType := image | video | none.

Module blinkSchema.

Record doc := mk {
  userId : ObjectId;
  content : option string;
  likes : nat;
  comments : list string;
  createdAt : N;
  mediaUrl : option string;
  mediaType : MediaType
}.

End blinkSchema.

(** The [Blink] collection.  It is threaded through the two blink handlers
    beside the [World], whose store holds the users they populate. *)
Abbreviation Blinks := (gmap ObjectId blinkSchema.doc).

(** [req.file] as multer leaves it: the type the client declared and the
    name under which the file was stored. *)
Record File := mkFile {
  mimetype : string;
  filename : string
}.

(** A blink as [GET /api/blinks] sends it: the document with [userId]
    populated ([None] when the user is gone) and the media URL. *)
Record BlinkObject := mkBlinkObject {
  blink_id : ObjectId;
  blink : blinkSchema.doc;
  blink_user : option UserSummary;
  mediaDataUrl : option string
}.

(** The JSON bodies of the blink routes; [BError] is the body of the global
    error handler. *)
Inductive BlinkJson :=
| BMessage (message : string)
| BError (message : string)
| BBlink (_id : ObjectId) (blink : blinkSchema.doc)
| BBlinks (blinks : list BlinkObject).

Record BlinkResponse := mkBlinkResponse {
  bcode : nat;
  bbody : BlinkJson
}.

(** The [fileFilter] of the multer configuration (lines 111-114). *)
Definition fileFilter (file : File) : bool :=
  startsWith "image/" (mimetype file) || startsWith "video/" (mimetype file).

(** [upload.single('media')] for a file within the size limit: the accepted
    [req.file], or the answer of the global error handler (lines 533-539)
    to the error of the filter, which carries no [status]. *)
Definition upload_single (file : option File) : option File + BlinkResponse :=
  match file with
  | None => inl None
  | Some file =>
      if fileFilter file then inl (Some file)
      else inr (mkBlinkResponse 500 (BError "Only images and videos are allowed"))
  end.

(** [new Blink({ userId, content, mediaType, mediaUrl })] at time [now]:
    [likes], [comments] and [createdAt] take their defaults. *)
Definition Blink_new (now : N) (userId : ObjectId) (content : option string)
    (file : option File) : blinkSchema.doc :=
  blinkSchema.mk userId content 0 [] now
    (if file is Some file then Some (filename file) else None)
    (if file is Some file
     then if startsWith "image/" (mimetype file) then image else video
     else none).

(** [newBlink.save()]: [userId] is required and [content] has
    [maxlength: 200]; then the insert. *)
Definition Blink_create (now : N) (newId : ObjectId) (userId : option ObjectId)
    (content : option string) (file : option File) (blinks : Blinks) :
    Async (blinkSchema.doc * Blinks) :=
  match userId with
  | None => throw ValidationError
  | Some userId =>
      if (if content is Some c then bool_decide (200 < String.length c) else false)
      then throw ValidationError
      else
        _ ← roundTrip;
        match blinks !! newId with
        | Some _ => throw DuplicateKey
        | None =>
            let newBlink := Blink_new now userId content file in
            mret (newBlink, <[newId := newBlink]> blinks)
        end
  end.

(** The handler of [POST /api/blinks] (lines 179-199), after the upload
    middleware; [now] is [Date.now()].  Its only write is the last step of
    the body, so an exception leaves the collection as it was. *)
Definition post_blinks_handler (now : N) (newId : ObjectId)
    (userId : option ObjectId) (content : option string) (file : option File)
    (blinks : Blinks) : World → BlinkResponse * Blinks * World :=
  λ w,
    if (if content is Some c
        then bool_decide (c ≠ "") && bool_decide (15 < length (split_on " "%char c))
        else false)
    then (mkBlinkResponse 400 (BMessage "Blink cannot exceed 15 words"), blinks, w)
    else
      match run (Blink_create now newId userId content file blinks) w with
      | (Resolved (newBlink, blinks'), w') =>
          (mkBlinkResponse 201 (BBlink newId newBlink), blinks', w')
      | (Rejected _, w') =>
          (mkBlinkResponse 500 (BMessage "Error creating blink"), blinks, w')
      end.

(** [POST /api/blinks]: the upload middleware, then the handler. *)
Definition post_blinks (now : N) (newId : ObjectId)
    (userId : option ObjectId) (content : option string) (file : option File)
    (blinks : Blinks) : World → BlinkResponse * Blinks * World :=
  λ w,
    match upload_single file with
    | inl file => post_blinks_handler now newId userId content file blinks w
    | inr response => (response, blinks, w)
    end.

(** [x] was created at the instant of [y] or later. *)
Definition not_older (x y : ObjectId * blinkSchema.doc) : Prop :=
  (blinkSchema.createdAt y.2 ≤ blinkSchema.createdAt x.2)%N.

#[global] Instance not_older_dec x y : Decision (not_older x y).
Proof. unfold not_older. apply _. Defined.

(** [.sort({ createdAt: -1 })]: newest first.  The source leaves the order
    of blinks of the same instant to the database; here it is the order
    of a merge sort. *)
Definition newest_first (l : list (ObjectId * blinkSchema.doc)) :
    list (ObjectId * blinkSchema.doc) :=
  merge_sort not_older l.

(** [process.env.BACKEND_URL || 'https://newbackend-9u98.onrender.com'] *)
Definition backend_url (BACKEND_URL : option string) : string :=
  match BACKEND_URL with
  | Some url => if decide (url = "") then "https://newbackend-9u98.onrender.com" else url
  | None => "https://newbackend-9u98.onrender.com"
  end.

(** [b.toObject()] with [mediaDataUrl] added when [mediaUrl] is set. *)
Definition toObject (BACKEND_URL : option string)
    (b : ObjectId * blinkSchema.doc * option UserSummary) : BlinkObject :=
  mkBlinkObject b.1.1 b.1.2 b.2
    (match blinkSchema.mediaUrl b.1.2 with
     | Some mediaUrl =>
         if decide (mediaUrl = "") then None
         else Some (backend_url BACKEND_URL +:+ "/uploads/" +:+ mediaUrl)
     | None => None
     end).

(** [GET /api/blinks] (lines 156-176): the sorted find, then the
    population of [userId] with [name] and [email]. *)
Definition get_blinks (BACKEND_URL : option string) (blinks : Blinks) :
    World → BlinkResponse * World :=
  λ w,
    match
      run (_ ← roundTrip;
           populated ← query (λ s,
             (λ b : ObjectId * blinkSchema.doc,
                (b, User.summary false s (blinkSchema.userId b.2)))
               <$> newest_first (map_to_list blinks));
           mret (toObject BACKEND_URL <$> populated)) w
    with
    | (Resolved result, w') => (mkBlinkResponse 200 (BBlinks result), w')
    | (Rejected _, w') =>
        (mkBlinkResponse 500 (BMessage "Error fetching blinks"), w')
    end.

(** ** Writes, invariants and listings *)

(** Dispatch over a list of registrations, as [app] does over [layers]. *)
Definition dispatch (ls : list Layer) (newId : ObjectId) (r : Request) :
    World → Response * World :=
  match omap (λ l : Layer, l newId r) ls with
  | handler :: _ => handler
  | [] => λ w, (mkResponse 404 (JMessage "Route not found"), w)
  end.

(** One write to the store, as the reachable handlers perform them: the
    insert of a signup, the insert of a request, the save of a status, the
    deletion of a request, the [$addToSet] of an acceptance (between the
    two users of a stored request) and the save of a filtered friends
    array. *)
Inductive write (s : Store) : Store → Prop :=
| write_user id name email password :
    users s !! id = None →
    first_match (λ u, bool_decide (userSchema.email u = email)) (users s) = None →
    name ≠ "" → email ≠ "" → password ≠ "" →
    write s (with_users <[id := User.new name email password]> s)
| write_request id A B :
    A ≠ B → friendrequests s !! id = None →
    write s (with_friendrequests <[id := FriendRequest.new A B]> s)
| write_status id st :
    write s (with_friendrequests (alter (friendRequestSchema.set_status st) id) s)
| write_delete id :
    write s (with_friendrequests (delete id) s)
| write_addToSet id r A x :
    friendrequests s !! id = Some r →
    (A = friendRequestSchema.fromUser r ∧ x = friendRequestSchema.toUser r)
    ∨ (A = friendRequestSchema.toUser r ∧ x = friendRequestSchema.fromUser r) →
    write s (with_users
               (alter (λ u, userSchema.set_friends
                              (addToSet x (userSchema.friends u)) u) A) s)
| write_filter A l :
    (∀ u, users s !! A = Some u → l ⊆ userSchema.friends u) →
    write s (with_users (alter (userSchema.set_friends l) A) s).

(** No request from a user to itself, no user among its own friends, and
    no entry in any [outgoingRequests] or [incomingRequests] array. *)
Definition tidy (s : Store) : Prop :=
  (∀ id r, friendrequests s !! id = Some r →
     friendRequestSchema.fromUser r ≠ friendRequestSchema.toUser r)
  ∧ (∀ id u, users s !! id = Some u →
       (id ∉ userSchema.friends u)
       ∧ userSchema.outgoingRequests u = []
       ∧ userSchema.incomingRequests u = []).

(** No two users share an email, and no required field is empty. *)
Definition registered (s : Store) : Prop :=
  (∀ i j ui uj, users s !! i = Some ui → users s !! j = Some uj →
     userSchema.email ui = userSchema.email uj → i = j)
  ∧ (∀ i u, users s !! i = Some u →
       userSchema.name u ≠ "" ∧ userSchema.email u ≠ "" ∧ userSchema.password u ≠ "").

(** Friendship is mutual among the stored users. *)
Definition mutual (s : Store) : Prop :=
  ∀ A B uA uB, users s !! A = Some uA → users s !! B = Some uB →
    B ∈ userSchema.friends uA → A ∈ userSchema.friends uB.

(** The requests [GET /api/friend-requests/:userId] lists, when it answers
    a list. *)
Definition listed (resp : Response) : list ObjectId :=
  match body resp with
  | JRequests l => (λ x, x.1.1) <$> l
  | _ => []
  end.

(** The users a response lists. *)
Definition listed_users (resp : Response) : list UserSummary :=
  match body resp with
  | JUsers l => l
  | _ => []
  end.

(** ** Running the primitives *)

Lemma run_bind {A B} (p : Async A) (k : A → Async B) w :
  run (p ≫= k) w =
  match run p w with
  | (Resolved a, w') => run (k a) w'
  | (Rejected e, w') => (Rejected e, w')
  end.
Proof. reflexivity. Qed.

Lemma run_query_reliable {A} (f : Store → A) s :
  run (query f) (reliable s) = (Resolved (f s), reliable s).
Proof. reflexivity. Qed.


(** ** Filters and arrays *)

Lemma first_match_None {D} (p : D → bool) (m : gmap ObjectId D) :
  first_match p m = None ↔ ∀ id d, m !! id = Some d → p d = false.
Proof.
  unfold first_match. rewrite head_None. split.
  - intros Hnil id d Hd. destruct (p d) eqn:Hp; [|done].
    exfalso. eapply (filter_nil_not_elem_of _ _ (id, d)); [exact Hnil|exact Hp|].
    by apply elem_of_map_to_list.
  - intros Hall. destruct (filter _ _) as [|[id d] l] eqn:Hf; [done|].
    assert (Hin : (id, d) ∈ filter (λ kd : ObjectId * D, p kd.2 = true) (map_to_list m))
      by (rewrite Hf; left).
    apply list_elem_of_filter in Hin as [Hp Hin]. cbn in Hp.
    apply elem_of_map_to_list in Hin. rewrite (Hall _ _ Hin) in Hp. done.
Qed.

Lemma first_match_Some {D} (p : D → bool) (m : gmap ObjectId D) id d :
  first_match p m = Some (id, d) → m !! id = Some d ∧ p d = true.
Proof.
  unfold first_match. intros Hh. apply head_Some_elem_of in Hh.
  apply list_elem_of_filter in Hh as [Hp Hin].
  by apply elem_of_map_to_list in Hin.
Qed.

(** [findOne({ fromUser, toUser, status: 'pending' })] finds a document
    exactly when a pending request from [A] to [B] is stored. *)
Lemma findOne_pending_is_Some s A B :
  is_Some (first_match
             (λ r, bool_decide (friendRequestSchema.fromUser r = A
                                ∧ friendRequestSchema.toUser r = B
                                ∧ friendRequestSchema.status r = pending))
             (friendrequests s))
  ↔ pending_request s A B.
Proof.
  split.
  - intros [[id d] Hm]. apply first_match_Some in Hm as [Hd Hp].
    apply bool_decide_eq_true in Hp as (<- & <- & Hst).
    exists id. destruct d as [f t st]; cbn in *. by subst.
  - intros [id Hd]. apply not_eq_None_Some. intros Hn.
    rewrite first_match_None in Hn. specialize (Hn _ _ Hd).
    by rewrite bool_decide_eq_false in Hn; cbn in Hn; apply Hn.
Qed.

Lemma includes_true x l : includes x l = true ↔ x ∈ l.
Proof. apply bool_decide_eq_true. Qed.

Lemma includes_false x l : includes x l = false ↔ x ∉ l.
Proof. apply bool_decide_eq_false. Qed.

Lemma some_eq_includes x l : some_eq x l = includes x l.
Proof.
  unfold some_eq, includes. induction l as [|y l IH]; cbn; [done|].
  rewrite IH. unfold includes.
  destruct (decide (y = x)) as [->|Hne].
  - rewrite bool_decide_eq_true_2 by done. cbn.
    symmetry. apply bool_decide_eq_true. left.
  - rewrite (bool_decide_eq_false_2 (y = x)) by done. cbn.
    apply bool_decide_ext. rewrite elem_of_cons.
    split; [by right | by intros [->|?]].
Qed.

Lemma elem_of_addToSet x y l : y ∈ addToSet x l ↔ y = x ∨ y ∈ l.
Proof.
  unfold addToSet. destruct (includes x l) eqn:Hx.
  - apply includes_true in Hx. split; [by right | by intros [->|?]].
  - rewrite elem_of_app, list_elem_of_singleton. tauto.
Qed.

(** [$addToSet] of an element that is present is a no-op. *)
Lemma addToSet_present x l : x ∈ l → addToSet x l = l.
Proof. intros Hx. unfold addToSet. by rewrite (proj2 (includes_true x l) Hx). Qed.

Lemma addToSet_idemp x l : addToSet x (addToSet x l) = addToSet x l.
Proof. apply addToSet_present, elem_of_addToSet. by left. Qed.

Lemma addToSet_NoDup x l : NoDup l → NoDup (addToSet x l).
Proof.
  intros Hl. unfold addToSet. destruct (includes x l) eqn:Hx; [done|].
  apply includes_false in Hx. apply NoDup_app. split_and!; [done| |apply NoDup_singleton].
  intros y Hy Hy'. apply list_elem_of_singleton in Hy'. by subst.
Qed.

Lemma elem_of_filter_ne x y l : y ∈ filter_ne x l ↔ y ≠ x ∧ y ∈ l.
Proof. unfold filter_ne. by rewrite list_elem_of_filter. Qed.

(** Filtering out an element that is absent is a no-op. *)
Lemma filter_ne_absent x l : x ∉ l → filter_ne x l = l.
Proof.
  intros Hx. unfold filter_ne. induction l as [|y l IH]; [done|].
  apply not_elem_of_cons in Hx as [Hne Hx].
  rewrite filter_cons_True by done. by rewrite IH.
Qed.

(** ** Dispatch *)

(** The first registration of [POST /api/friend-request] and of
    [PUT /api/friend-request/:requestId] serves every such request; the
    second registrations are never reached. *)
Lemma app_POST_friend_request newId fromUser toUser :
  app newId (POST_friend_request fromUser toUser)
  = post_friend_request_1 newId fromUser toUser.
Proof. by destruct fromUser, toUser. Qed.

Lemma app_PUT_friend_request newId requestId fromUser toUser status :
  app newId (PUT_friend_request requestId fromUser toUser status)
  = put_friend_request_1 requestId status.
Proof. reflexivity. Qed.

Lemma app_GET_friend_requests newId userId :
  app newId (GET_friend_requests userId) = get_friend_requests_1 userId.
Proof. reflexivity. Qed.

(** ** Cancelling a request *)

(** C6. [cancelRequest] answers 404 "Friend request not found" when no
    request has the identifier, 400 "Only pending requests can be
    cancelled" when the request is not pending, and otherwise deletes the
    record and answers 200; in the two failing cases the store is
    unchanged, and the deletion touches no other record and no user. *)
Theorem cancelRequest_spec (s : Store) (requestId : ObjectId) :
  (friendrequests s !! requestId = None →
     cancelRequest requestId (reliable s)
     = (mkResponse 404 (JMessage "Friend request not found"), reliable s))
  ∧ (∀ r, friendrequests s !! requestId = Some r →
       friendRequestSchema.status r ≠ pending →
       cancelRequest requestId (reliable s)
       = (mkResponse 400 (JMessage "Only pending requests can be cancelled"),
          reliable s))
  ∧ (∀ r, friendrequests s !! requestId = Some r →
       friendRequestSchema.status r = pending →
       ∃ s', cancelRequest requestId (reliable s)
             = (mkResponse 200 (JMessage "Friend request cancelled"), reliable s')
             ∧ friendrequests s' = delete requestId (friendrequests s)
             ∧ friendrequests s' !! requestId = None
             ∧ users s' = users s).
Proof.
  unfold cancelRequest, app; cbn. unfold delete_friend_request, try_catch.
  unfold FriendRequest.findById. rewrite run_bind, run_query_reliable.
  split_and!.
  - intros ->. reflexivity.
  - intros r -> Hst. cbn. by rewrite decide_True.
  - intros r -> Hst. cbn. rewrite decide_False by (by intros []).
    eexists. split_and!; [reflexivity|reflexivity| |reflexivity].
    cbn. apply lookup_delete_eq.
Qed.

(** ** Sending a request *)

(** C10. A successful [sendRequest] (answer 201) leaves every user document
    as it was; its only effect is one new [FriendRequest] record, stored
    under the allotted [_id], from [A] to [B] with status [pending]. *)
Theorem sendRequest_only_creates_record
    (newId A B : ObjectId) (w w' : World) (resp : Response) :
  sendRequest newId A B w = (resp, w') →
  code resp = 201 →
  users (db w') = users (db w)
  ∧ friendrequests (db w) !! newId = None
  ∧ friendrequests (db w')
    = <[newId := friendRequestSchema.mk A B pending]> (friendrequests (db w)).
Proof.
  unfold sendRequest. rewrite app_POST_friend_request.
  unfold post_friend_request_1, try_catch. intros Hrun Hcode.
  destruct (decide (A = B)) as [->|Hne].
  { cbn in Hrun. by simplify_eq. }
  cbn in Hrun.
  repeat (case_match; cbn in *; simplify_eq); done.
Qed.

(** The checks of the first [POST /api/friend-request] handler in the
    order of the source, on a store that does not fail. *)
Lemma post_friend_request_1_reliable (s : Store) (newId A B : ObjectId) :
  A ≠ B →
  post_friend_request_1 newId (Some A) (Some B) (reliable s) =
  match users s !! A with
  | None => (mkResponse 500 (JMessage "Error sending friend request"), reliable s)
  | Some sender =>
      if includes B (userSchema.friends sender) then
        (mkResponse 400 (JMessage "Already friends"), reliable s)
      else if first_match
                (λ r, bool_decide (friendRequestSchema.fromUser r = A
                                   ∧ friendRequestSchema.toUser r = B
                                   ∧ friendRequestSchema.status r = pending))
                (friendrequests s) is Some _ then
        (mkResponse 400 (JMessage "Friend request already sent"), reliable s)
      else
        match friendrequests s !! newId with
        | Some _ =>
            (mkResponse 500 (JMessage "Error sending friend request"), reliable s)
        | None =>
            (mkResponse 201
               (JMessageRequestId "Friend request sent successfully" newId),
             reliable (with_friendrequests
                         <[newId := friendRequestSchema.mk A B pending]> s))
        end
  end.
Proof.
  intros Hne. unfold post_friend_request_1, try_catch.
  rewrite decide_False by done. cbn.
  repeat (case_match; cbn in *; simplify_eq); done.
Qed.

Lemma sendRequest_already_friends s newId A B uA :
  A ≠ B → users s !! A = Some uA → B ∈ userSchema.friends uA →
  sendRequest newId A B (reliable s)
  = (mkResponse 400 (JMessage "Already friends"), reliable s).
Proof.
  intros Hne HA HB. unfold sendRequest.
  rewrite app_POST_friend_request, post_friend_request_1_reliable, HA by done.
  by rewrite (proj2 (includes_true _ _) HB).
Qed.

Lemma sendRequest_already_sent s newId A B uA :
  A ≠ B → users s !! A = Some uA → B ∉ userSchema.friends uA →
  pending_request s A B →
  sendRequest newId A B (reliable s)
  = (mkResponse 400 (JMessage "Friend request already sent"), reliable s).
Proof.
  intros Hne HA HB Hp. unfold sendRequest.
  rewrite app_POST_friend_request, post_friend_request_1_reliable, HA by done.
  rewrite (proj2 (includes_false _ _) HB).
  apply findOne_pending_is_Some in Hp as [kd ->]. done.
Qed.

Lemma sendRequest_created s newId A B uA :
  A ≠ B → users s !! A = Some uA → B ∉ userSchema.friends uA →
  ¬ pending_request s A B → friendrequests s !! newId = None →
  sendRequest newId A B (reliable s)
  = (mkResponse 201 (JMessageRequestId "Friend request sent successfully" newId),
     reliable (with_friendrequests
                 <[newId := friendRequestSchema.mk A B pending]> s)).
Proof.
  intros Hne HA HB Hp Hfresh. unfold sendRequest.
  rewrite app_POST_friend_request, post_friend_request_1_reliable, HA by done.
  rewrite (proj2 (includes_false _ _) HB), Hfresh.
  destruct (first_match _ _) eqn:Hm; [|done].
  exfalso. apply Hp, findOne_pending_is_Some. by rewrite Hm.
Qed.

(** What a 201 of [sendRequest] tells about the store it ran on. *)
Lemma sendRequest_success_inv newId A B w w' resp :
  sendRequest newId A B w = (resp, w') → code resp = 201 →
  A ≠ B
  ∧ (∃ uA, users (db w) !! A = Some uA ∧ B ∉ userSchema.friends uA)
  ∧ ¬ pending_request (db w) A B.
Proof.
  unfold sendRequest. rewrite app_POST_friend_request.
  unfold post_friend_request_1, try_catch. intros Hrun Hcode.
  destruct (decide (A = B)) as [->|Hne].
  { cbn in Hrun. by simplify_eq. }
  split; [done|]. cbn in Hrun.
  repeat (case_match; cbn in *; simplify_eq).
  all: split; [eexists; split; [eassumption|by apply includes_false]|].
  all: intros [kd Hp]%findOne_pending_is_Some; congruence.
Qed.

(** C5 (amended). [sendRequest(A,B)] answers 400 "Cannot send request to
    yourself" when [A = B].  For distinct existing users it answers 400
    "Already friends" when [B] is in [A]'s friends array, 400 "Friend
    request already sent" when a pending request record from [A] to [B] is
    stored, and otherwise creates the record and answers 201; a pending
    request in the direction [B]→[A] plays no part.  A 201 is answered
    only when [A ≠ B], [A] exists, [B] is not in [A]'s friends array and no
    pending record from [A] to [B] is stored. *)
Theorem sendRequest_preconditions (s : Store) (newId A B : ObjectId) :
  (A = B →
     sendRequest newId A B (reliable s)
     = (mkResponse 400 (JMessage "Cannot send request to yourself"), reliable s))
  ∧ (∀ uA uB, A ≠ B → users s !! A = Some uA → users s !! B = Some uB →
       (B ∈ userSchema.friends uA →
          sendRequest newId A B (reliable s)
          = (mkResponse 400 (JMessage "Already friends"), reliable s))
       ∧ (B ∉ userSchema.friends uA → pending_request s A B →
            sendRequest newId A B (reliable s)
            = (mkResponse 400 (JMessage "Friend request already sent"), reliable s))
       ∧ (B ∉ userSchema.friends uA → ¬ pending_request s A B →
            friendrequests s !! newId = None →
            sendRequest newId A B (reliable s)
            = (mkResponse 201
                 (JMessageRequestId "Friend request sent successfully" newId),
               reliable (with_friendrequests
                           <[newId := friendRequestSchema.mk A B pending]> s))))
  ∧ (∀ resp w', sendRequest newId A B (reliable s) = (resp, w') →
       code resp = 201 →
       A ≠ B
       ∧ (∃ uA, users s !! A = Some uA ∧ B ∉ userSchema.friends uA)
       ∧ ¬ pending_request s A B).
Proof.
  split_and!.
  - intros ->. unfold sendRequest. rewrite app_POST_friend_request.
    unfold post_friend_request_1, try_catch. by rewrite decide_True.
  - intros uA uB Hne HA HB. split_and!.
    + by apply sendRequest_already_friends.
    + by apply sendRequest_already_sent.
    + by apply sendRequest_created.
  - intros resp w' Hrun Hcode.
    apply (sendRequest_success_inv _ _ _ _ _ _ Hrun Hcode).
Qed.

(** C4 (amended). While a request from [A] to [B] is pending, a repeated
    [sendRequest(A,B)] is refused with a 400 and changes nothing; a
    [sendRequest(B,A)] is not refused on its account: when [A] is not in
    [B]'s friends array and no request from [B] to [A] is pending it
    answers 201 and stores a second pending record, so that both
    directions are pending. *)
Theorem pending_blocks_same_direction_only
    (s : Store) (newId A B : ObjectId) (uA uB : userSchema.doc) :
  pending_request s A B →
  A ≠ B → users s !! A = Some uA → users s !! B = Some uB →
  (∃ message,
     (message = "Already friends" ∨ message = "Friend request already sent")
     ∧ sendRequest newId A B (reliable s)
       = (mkResponse 400 (JMessage message), reliable s))
  ∧ (A ∉ userSchema.friends uB → ¬ pending_request s B A →
     friendrequests s !! newId = None →
     ∃ s', sendRequest newId B A (reliable s)
           = (mkResponse 201
                (JMessageRequestId "Friend request sent successfully" newId),
              reliable s')
           ∧ pending_request s' A B ∧ pending_request s' B A
           ∧ users s' = users s).
Proof.
  intros Hp Hne HA HB. split.
  - destruct (decide (B ∈ userSchema.friends uA)) as [Hin|Hnin].
    + eexists; split; [by left|]. by eapply sendRequest_already_friends.
    + eexists; split; [by right|]. by eapply sendRequest_already_sent.
  - intros Hnin Hnp Hfresh. eexists. split_and!.
    + by eapply sendRequest_created.
    + destruct Hp as [id Hid]. exists id. cbn.
      rewrite lookup_insert_ne; [done|]. by intros ->; rewrite Hfresh in Hid.
    + exists newId. cbn. by rewrite lookup_insert_eq.
    + reflexivity.
Qed.

(** ** Querying the status *)

Lemma queryStatus_reliable (s : Store) (A B : ObjectId) :
  queryStatus A B (reliable s) =
  (match users s !! A, users s !! B with
   | Some sender, Some receiver =>
       mkResponse 200
         (JStatus
            (if includes B (userSchema.friends sender) then "friends"
             else if includes B (userSchema.outgoingRequests sender)
                     || includes A (userSchema.incomingRequests receiver)
                  then "pending"
                  else "none"))
   | _, _ => mkResponse 404 (JMessage "User not found")
   end, reliable s).
Proof.
  unfold queryStatus, app; cbn. unfold get_friend_requests_check, try_catch. cbn.
  destruct (users s !! A) as [sender|]; destruct (users s !! B) as [receiver|];
    cbn; try reflexivity.
  destruct (includes B (userSchema.friends sender)); [reflexivity|].
  by destruct (includes B (userSchema.outgoingRequests sender)
               || includes A (userSchema.incomingRequests receiver)).
Qed.

(** The answer depends on the user documents alone: the [FriendRequest]
    collection is not consulted. *)
Lemma queryStatus_users (s1 s2 : Store) (A B : ObjectId) :
  users s1 = users s2 →
  (queryStatus A B (reliable s1)).1 = (queryStatus A B (reliable s2)).1.
Proof. intros Hu. by rewrite !queryStatus_reliable, Hu. Qed.

(** What the status check reads.  [queryStatus(A,B)] answers 404 "User not
    found" when either user is missing.  For existing users it answers
    [friends] exactly when [B] is listed in [A]'s friends array (which is
    mutual listing whenever the two arrays agree), [pending] exactly when
    it is not and the request [A]→[B] is marked in [A]'s outgoing or in
    [B]'s incoming array, and [none] otherwise: the [FriendRequest]
    collection plays no part.  The store is left as it was. *)
Lemma queryStatus_reads_arrays (s : Store) (A B : ObjectId) :
  (users s !! A = None ∨ users s !! B = None →
     queryStatus A B (reliable s)
     = (mkResponse 404 (JMessage "User not found"), reliable s))
  ∧ (∀ uA uB, users s !! A = Some uA → users s !! B = Some uB →
       ∃ st, queryStatus A B (reliable s) = (mkResponse 200 (JStatus st), reliable s)
         ∧ (st = "friends" ↔ B ∈ userSchema.friends uA)
         ∧ (st = "pending" ↔
              (B ∉ userSchema.friends uA)
              ∧ (B ∈ userSchema.outgoingRequests uA
                 ∨ A ∈ userSchema.incomingRequests uB))
         ∧ (st = "none" ↔
              (B ∉ userSchema.friends uA)
              ∧ (B ∉ userSchema.outgoingRequests uA)
              ∧ (A ∉ userSchema.incomingRequests uB))
         ∧ ((B ∈ userSchema.friends uA ↔ A ∈ userSchema.friends uB) →
            (st = "friends" ↔
               B ∈ userSchema.friends uA ∧ A ∈ userSchema.friends uB))).
Proof.
  rewrite queryStatus_reliable. split.
  - intros [-> | ->]; [done|]. by destruct (users s !! A).
  - intros uA uB -> ->. eexists. split; [reflexivity|].
    destruct (includes B (userSchema.friends uA)) eqn:Hf.
    { apply includes_true in Hf. split_and!; try tauto; split; (done || tauto). }
    apply includes_false in Hf.
    destruct (includes B (userSchema.outgoingRequests uA)) eqn:Ho;
      destruct (includes A (userSchema.incomingRequests uB)) eqn:Hi; cbn;
      rewrite ?includes_true, ?includes_false in *;
      split_and!; try tauto; split; (done || tauto).
Qed.

(** After a successful [sendRequest], every status query is answered as
    before it: the request that was stored is invisible to the check. *)
Lemma sendRequest_keeps_queryStatus
    (newId A B X Y : ObjectId) (w w' : World) (resp : Response) :
  sendRequest newId A B w = (resp, w') →
  code resp = 201 →
  (queryStatus X Y (reliable (db w'))).1 = (queryStatus X Y (reliable (db w))).1.
Proof.
  unfold sendRequest. rewrite app_POST_friend_request.
  unfold post_friend_request_1, try_catch. intros Hrun Hcode.
  apply queryStatus_users.
  destruct (decide (A = B)) as [->|Hne].
  { cbn in Hrun. by simplify_eq. }
  cbn in Hrun.
  repeat (case_match; cbn in *; simplify_eq); done.
Qed.

(** ** Resolving a request *)

Lemma alter_Some_insert {D} (f : D → D) (m : gmap ObjectId D) id d :
  m !! id = Some d → alter f id m = <[id := f d]> m.
Proof.
  intros Hd. apply map_eq. intros j. destruct (decide (id = j)) as [<-|Hne].
  - by rewrite lookup_alter_eq, lookup_insert_eq, Hd.
  - by rewrite lookup_alter_ne, lookup_insert_ne.
Qed.

(** The first [PUT /api/friend-request/:requestId] handler on a store that
    does not fail, for a stored request and a status of the enum. *)
Lemma put_friend_request_1_reliable (s : Store) (requestId : ObjectId)
    (status : string) (st : RequestStatus) (r : friendRequestSchema.doc) :
  friendrequests s !! requestId = Some r →
  enum_status status = Some st →
  put_friend_request_1 requestId status (reliable s) =
  (mkResponse 200 (JMessage ("Friend request " +:+ status)),
   reliable
     (mkStore
        (if decide (status = "accepted")
         then befriend (friendRequestSchema.fromUser r)
                (friendRequestSchema.toUser r) (users s)
         else users s)
        (<[requestId := friendRequestSchema.set_status st r]> (friendrequests s)))).
Proof.
  intros Hr Hst. unfold put_friend_request_1, try_catch. cbn.
  rewrite Hr, Hst.
  destruct (decide (status = "accepted")); cbn; unfold with_friendrequests; cbn;
    by rewrite (alter_Some_insert _ _ _ _ Hr).
Qed.

Lemma befriend_lookup_other A B m u :
  u ≠ A → u ≠ B → befriend A B m !! u = m !! u.
Proof. intros HA HB. unfold befriend. by rewrite !lookup_alter_ne. Qed.

Lemma befriend_friends_fst A B m uA :
  m !! A = Some uA →
  userSchema.friends <$> befriend A B m !! A = Some (addToSet B (userSchema.friends uA)).
Proof.
  intros HA. unfold befriend. destruct (decide (B = A)) as [->|Hne].
  - rewrite !lookup_alter_eq, HA. cbn. by rewrite addToSet_idemp.
  - rewrite lookup_alter_ne, lookup_alter_eq, HA by done. reflexivity.
Qed.

Lemma befriend_friends_snd A B m uB :
  m !! B = Some uB →
  userSchema.friends <$> befriend A B m !! B = Some (addToSet A (userSchema.friends uB)).
Proof.
  intros HB. unfold befriend. destruct (decide (A = B)) as [->|Hne].
  - rewrite !lookup_alter_eq, HB. cbn. by rewrite addToSet_idemp.
  - rewrite lookup_alter_eq, lookup_alter_ne, HB by done. reflexivity.
Qed.

(** The acceptance writes only the [friends] path. *)
Lemma befriend_requests_arrays A B m u :
  userSchema.incomingRequests <$> befriend A B m !! u
  = userSchema.incomingRequests <$> m !! u
  ∧ userSchema.outgoingRequests <$> befriend A B m !! u
    = userSchema.outgoingRequests <$> m !! u.
Proof.
  unfold befriend. rewrite !lookup_alter.
  repeat case_decide; simplify_eq; destruct (m !! u); by split.
Qed.

Lemma set_friends_same u : userSchema.set_friends (userSchema.friends u) u = u.
Proof. by destruct u. Qed.

(** Accepting between users who already list each other changes no user
    document. *)
Lemma befriend_present A B m uA uB :
  m !! A = Some uA → m !! B = Some uB →
  B ∈ userSchema.friends uA → A ∈ userSchema.friends uB →
  befriend A B m = m.
Proof.
  intros HA HB HBA HAB. apply map_eq. intros u. unfold befriend.
  rewrite !lookup_alter. repeat case_decide; simplify_eq; rewrite ?HA, ?HB; cbn;
    try done.
  all: rewrite ?addToSet_idemp, ?addToSet_present by done.
  all: by rewrite ?set_friends_same.
Qed.

(** What the reachable [PUT] handler does with an acceptance.  Accepting
    a pending request from [A] to [B] between existing users answers 200
    and keeps the record, now with status [accepted]; [queryStatus(A,B)]
    then answers [friends]; each user is added to the other's friends
    array by [$addToSet], which adds nothing when the friend is already
    listed (when both already list each other no user document changes);
    no [outgoingRequests] or [incomingRequests] array is written; users
    other than [A] and [B] are untouched. *)
Theorem resolveRequest_accept
    (s : Store) (requestId A B : ObjectId) (uA uB : userSchema.doc) :
  friendrequests s !! requestId = Some (friendRequestSchema.mk A B pending) →
  users s !! A = Some uA → users s !! B = Some uB →
  ∃ s',
    resolveRequest requestId "accepted" (reliable s)
    = (mkResponse 200 (JMessage "Friend request accepted"), reliable s')
    ∧ friendrequests s'
      = <[requestId := friendRequestSchema.mk A B accepted]> (friendrequests s)
    ∧ (queryStatus A B (reliable s')).1 = mkResponse 200 (JStatus "friends")
    ∧ userSchema.friends <$> users s' !! A
      = Some (addToSet B (userSchema.friends uA))
    ∧ userSchema.friends <$> users s' !! B
      = Some (addToSet A (userSchema.friends uB))
    ∧ (B ∈ userSchema.friends uA → A ∈ userSchema.friends uB →
       users s' = users s)
    ∧ (∀ u, userSchema.outgoingRequests <$> users s' !! u
            = userSchema.outgoingRequests <$> users s !! u
            ∧ userSchema.incomingRequests <$> users s' !! u
              = userSchema.incomingRequests <$> users s !! u)
    ∧ (∀ u, u ≠ A → u ≠ B → users s' !! u = users s !! u).
Proof.
  intros Hr HA HB.
  exists (mkStore (befriend A B (users s))
            (<[requestId := friendRequestSchema.mk A B accepted]> (friendrequests s))).
  split.
  { unfold resolveRequest. rewrite app_PUT_friend_request.
    rewrite (put_friend_request_1_reliable s requestId "accepted" accepted _ Hr)
      by done.
    by rewrite decide_True. }
  cbn -[befriend].
  pose proof (befriend_friends_fst A B (users s) uA HA) as HfA.
  pose proof (befriend_friends_snd A B (users s) uB HB) as HfB.
  split_and!; try done.
  - rewrite queryStatus_reliable. cbn -[befriend].
    destruct (befriend A B (users s) !! A) as [uA'|] eqn:HA'; [|done].
    destruct (befriend A B (users s) !! B) as [uB'|] eqn:HB'; [|done].
    cbn in HfA. simplify_eq. rewrite HfA.
    rewrite (proj2 (includes_true _ _)); [done|]. apply elem_of_addToSet. by left.
  - intros HBA HAB. by eapply befriend_present.
  - intros u. destruct (befriend_requests_arrays A B (users s) u). by split.
  - intros u HuA HuB. by apply befriend_lookup_other.
Qed.


(** ** Removing a friendship *)

Lemma delete_friends_reliable (s : Store) (A B : ObjectId) (uA uB : userSchema.doc) :
  users s !! A = Some uA → users s !! B = Some uB →
  delete_friends A B (reliable s) =
  (mkResponse 200 (JMessage "Friend removed successfully"),
   reliable
     (with_users
        (λ m, alter (userSchema.set_friends (filter_ne A (userSchema.friends uB))) B
                (alter (userSchema.set_friends (filter_ne B (userSchema.friends uA))) A m))
        s)).
Proof.
  intros HA HB. unfold delete_friends, try_catch. cbn. by rewrite HA, HB.
Qed.

(** C7. For existing users [A] and [B], [removeFriendship(A,B)] answers 200
    "Friend removed successfully".  When neither lists the other the
    store is left exactly as it was.  For distinct users, each one's
    friends array afterwards is the former array without the other user
    (so neither lists the other any more, and every other friend is
    kept); nothing else of the two documents, no other user and no request
    record is changed. *)
Theorem removeFriendship_spec
    (s : Store) (A B : ObjectId) (uA uB : userSchema.doc) :
  users s !! A = Some uA → users s !! B = Some uB →
  ∃ s',
    removeFriendship A B (reliable s)
    = (mkResponse 200 (JMessage "Friend removed successfully"), reliable s')
    ∧ friendrequests s' = friendrequests s
    ∧ (B ∉ userSchema.friends uA → A ∉ userSchema.friends uB → s' = s)
    ∧ (A ≠ B →
       ∃ uA' uB',
         users s' !! A = Some uA' ∧ users s' !! B = Some uB'
         ∧ uA' = userSchema.set_friends (filter_ne B (userSchema.friends uA)) uA
         ∧ uB' = userSchema.set_friends (filter_ne A (userSchema.friends uB)) uB
         ∧ (B ∉ userSchema.friends uA') ∧ (A ∉ userSchema.friends uB')
         ∧ (∀ C, C ∈ userSchema.friends uA' ↔ C ≠ B ∧ C ∈ userSchema.friends uA)
         ∧ (∀ C, C ∈ userSchema.friends uB' ↔ C ≠ A ∧ C ∈ userSchema.friends uB)
         ∧ (∀ u, u ≠ A → u ≠ B → users s' !! u = users s !! u)).
Proof.
  intros HA HB. eexists. split.
  { unfold removeFriendship, app; cbn. by apply delete_friends_reliable. }
  cbn. split_and!; [done| |].
  - intros HBA HAB. rewrite !filter_ne_absent by done.
    destruct s as [us rs]; unfold with_users; cbn in *. f_equal.
    apply map_eq. intros u. rewrite !lookup_alter.
    repeat case_decide; simplify_eq; rewrite ?HA, ?HB; cbn;
      by rewrite ?set_friends_same.
  - intros Hne. do 2 eexists.
    rewrite lookup_alter_ne, lookup_alter_eq, HA by done.
    rewrite lookup_alter_eq, lookup_alter_ne, HB by done. cbn.
    split_and!; try reflexivity; cbn.
    + rewrite elem_of_filter_ne. by intros [? _].
    + rewrite elem_of_filter_ne. by intros [? _].
    + intros C. apply elem_of_filter_ne.
    + intros C. apply elem_of_filter_ne.
    + intros u HuA HuB. by rewrite !lookup_alter_ne.
Qed.

(** ** Failed operations *)

(** C9 (amended). Whatever round trips fail: an operation that answers
    400 or 404 has written nothing, and so has any failed operation
    (answer 400 or above) whose handler writes at most once, that is every
    operation but an acceptance and the removal of a friendship; the store
    is exactly as before the call.  (A failure between the writes of
    an acceptance or of a removal is not undone; nothing is stated for
    it.) *)
Theorem failed_operation_unchanged
    (newId : ObjectId) (r : Request) (w w' : World) (resp : Response) :
  app newId r w = (resp, w') →
  400 ≤ code resp →
  code resp < 500 ∨ single_write r = true →
  db w' = db w.
Proof.
  intros Hrun Hfail Hkind.
  destruct r; unfold app in Hrun; cbn [omap layers list_omap] in Hrun.
  all: unfold post_signup, get_friend_requests_check, post_friend_request_1,
         delete_friend_request, get_friend_requests_1, put_friend_request_1,
         get_friends, delete_friends, try_catch, User.create in Hrun.
  all: cbn in Hrun.
  all: repeat (case_match; cbn in *; simplify_eq); try done; try lia.
  all: destruct Hkind as [?|Hk]; [lia|].
  all: by apply bool_decide_eq_true in Hk.
Qed.

(** ** The second registrations, which are never reached *)

(** What the unreachable handler does for distinct existing users without
    a relationship: it marks the request in both arrays, after which the
    status check answers [pending]. *)
Lemma post_friend_request_2_marks
    (s : Store) (A B : ObjectId) (uA uB : userSchema.doc) :
  A ≠ B → users s !! A = Some uA → users s !! B = Some uB →
  B ∉ userSchema.friends uA →
  B ∉ userSchema.outgoingRequests uA →
  A ∉ userSchema.incomingRequests uB →
  ∃ s' uA' uB',
    post_friend_request_2 (Some A) (Some B) (reliable s)
    = (mkResponse 201 (JMessage "Friend request sent successfully"), reliable s')
    ∧ users s' !! A = Some uA' ∧ users s' !! B = Some uB'
    ∧ B ∈ userSchema.outgoingRequests uA'
    ∧ A ∈ userSchema.incomingRequests uB'
    ∧ (queryStatus A B (reliable s')).1 = mkResponse 200 (JStatus "pending").
Proof.
  intros Hne HA HB Hf Ho Hi.
  exists (with_users
            (λ m, alter (userSchema.set_incomingRequests
                           (push A (userSchema.incomingRequests uB))) B
                    (alter (userSchema.set_outgoingRequests
                              (push B (userSchema.outgoingRequests uA))) A m)) s).
  do 2 eexists. split_and!.
  - unfold post_friend_request_2, try_catch. cbn. rewrite HA, HB.
    rewrite (proj2 (includes_false _ _) Hf), (proj2 (includes_false _ _) Ho),
      (proj2 (includes_false _ _) Hi). reflexivity.
  - cbn. by rewrite lookup_alter_ne, lookup_alter_eq, HA.
  - cbn. by rewrite lookup_alter_eq, lookup_alter_ne, HB.
  - cbn. unfold push. rewrite elem_of_app, list_elem_of_singleton. by right.
  - cbn. unfold push. rewrite elem_of_app, list_elem_of_singleton. by right.
  - rewrite queryStatus_reliable. cbn.
    rewrite lookup_alter_ne, lookup_alter_eq, HA by done.
    rewrite lookup_alter_eq, lookup_alter_ne, HB by done. cbn.
    rewrite (proj2 (includes_false _ _) Hf).
    rewrite (proj2 (includes_true B (push B _))); [done|].
    unfold push. rewrite elem_of_app, list_elem_of_singleton. by right.
Qed.

Lemma includes_push x l : includes x (push x l) = true.
Proof.
  apply includes_true. unfold push. rewrite elem_of_app, list_elem_of_singleton.
  by right.
Qed.

Lemma includes_filter_ne x l : includes x (filter_ne x l) = false.
Proof. apply includes_false. rewrite elem_of_filter_ne. by intros [? _]. Qed.

(** The second [PUT] handler answers 404 when one of the two arrays does
    not mark the request. *)
Lemma put_friend_request_2_not_found
    (s : Store) (A B : ObjectId) (uA uB : userSchema.doc) (status : string) :
  users s !! A = Some uA → users s !! B = Some uB →
  A ∉ userSchema.incomingRequests uB ∨ B ∉ userSchema.outgoingRequests uA →
  put_friend_request_2 (Some A) (Some B) status (reliable s)
  = (mkResponse 404 (JMessage "Friend request not found"), reliable s).
Proof.
  intros HA HB Hno. unfold put_friend_request_2, try_catch. cbn.
  rewrite HA, HB. cbn. rewrite !some_eq_includes.
  destruct Hno as [Hno|Hno]; apply includes_false in Hno; rewrite Hno;
    [done|by rewrite andb_false_r].
Qed.

(** What the unreachable second [PUT] handler does with a request that the
    arrays mark: it clears both entries, befriends the two, and answers
    404 when called again. *)
Lemma put_friend_request_2_resolves
    (s : Store) (A B : ObjectId) (uA uB : userSchema.doc) :
  A ≠ B → users s !! A = Some uA → users s !! B = Some uB →
  B ∈ userSchema.outgoingRequests uA →
  A ∈ userSchema.incomingRequests uB →
  ∃ s' user,
    put_friend_request_2 (Some A) (Some B) "accepted" (reliable s)
    = (mkResponse 200
         (JMessageStatusUser "Friend request accepted" "accepted" user),
       reliable s')
    ∧ (queryStatus A B (reliable s')).1 = mkResponse 200 (JStatus "friends")
    ∧ ¬ marks_request s' A B
    ∧ (put_friend_request_2 (Some A) (Some B) "accepted" (reliable s')).1
      = mkResponse 404 (JMessage "Friend request not found").
Proof.
  intros Hne HA HB Ho Hi.
  set (fA := λ u, userSchema.set_friends
                    (if negb (includes B (userSchema.friends uA))
                     then push B (userSchema.friends uA) else userSchema.friends uA)
                    (userSchema.set_outgoingRequests
                       (filter_ne B (userSchema.outgoingRequests uA)) u)).
  set (fB := λ u, userSchema.set_friends
                    (if negb (includes A (userSchema.friends uB))
                     then push A (userSchema.friends uB) else userSchema.friends uB)
                    (userSchema.set_incomingRequests
                       (filter_ne A (userSchema.incomingRequests uB)) u)).
  exists (with_users (λ m, alter fB B (alter fA A m)) s).
  assert (HA' : users (with_users (λ m, alter fB B (alter fA A m)) s) !! A
                = Some (fA uA)).
  { cbn. by rewrite lookup_alter_ne, lookup_alter_eq, HA. }
  assert (HB' : users (with_users (λ m, alter fB B (alter fA A m)) s) !! B
                = Some (fB uB)).
  { cbn. by rewrite lookup_alter_eq, lookup_alter_ne, HB. }
  assert (HfA : includes B (userSchema.friends (fA uA)) = true).
  { subst fA. cbn.
    destruct (includes B (userSchema.friends uA)) eqn:Hinc; cbn;
      [done|apply includes_push]. }
  eexists. split_and!.
  - unfold put_friend_request_2, try_catch. cbn. rewrite HA, HB. cbn.
    destruct (decide ("accepted" = "accepted")) as [_|[]]; [|done].
    rewrite !some_eq_includes.
    rewrite (proj2 (includes_true _ _) Ho), (proj2 (includes_true _ _) Hi). cbn.
    rewrite lookup_alter_eq, lookup_alter_ne, HB by done. cbn. reflexivity.
  - rewrite queryStatus_reliable, HA', HB'. by rewrite HfA.
  - intros [(u & Hu & Hin) | (u & Hu & Hin)].
    + rewrite HA' in Hu. simplify_eq. subst fA. cbn in Hin.
      apply elem_of_filter_ne in Hin as [? _]. done.
    + rewrite HB' in Hu. simplify_eq. subst fB. cbn in Hin.
      apply elem_of_filter_ne in Hin as [? _]. done.
  - rewrite (put_friend_request_2_not_found _ _ _ _ _ _ HA' HB'); [done|].
    left. subst fB. cbn. rewrite elem_of_filter_ne. by intros [? _].
Qed.

(** ** The claims at concrete sessions *)

Lemma signed_up_users :
  signed_up = reliable (mkStore {[alice := alice_doc; bob := bob_doc]} ∅).
Proof. vm_compute. reflexivity. Qed.

(** C1, at the failing input.  With Alice and Bob signed up and unrelated,
    [sendRequest(alice,bob)] succeeds, and yet [queryStatus(alice,bob)]
    still answers [none], Bob is not in Alice's [outgoingRequests] and
    Alice is not in Bob's [incomingRequests]: the request lives only in the
    [FriendRequest] collection, which the status check does not read. *)
Theorem sendRequest_status_stays_none :
  (queryStatus alice bob signed_up).1 = mkResponse 200 (JStatus "none")
  ∧ sendRequest 10%N alice bob signed_up
    = (mkResponse 201 (JMessageRequestId "Friend request sent successfully" 10%N),
       alice_asked_bob)
  ∧ pending_request (db alice_asked_bob) alice bob
  ∧ (queryStatus alice bob alice_asked_bob).1 = mkResponse 200 (JStatus "none")
  ∧ users (db alice_asked_bob) !! alice = Some alice_doc
  ∧ users (db alice_asked_bob) !! bob = Some bob_doc
  ∧ (bob ∉ userSchema.outgoingRequests alice_doc)
  ∧ (alice ∉ userSchema.incomingRequests bob_doc).
Proof.
  split_and!; try (vm_compute; reflexivity).
  - exists 10%N. vm_compute. reflexivity.
  - cbn. apply not_elem_of_nil.
  - cbn. apply not_elem_of_nil.
Qed.

(** C3, at the failing input.  Alice and Bob exist and neither lists the
    other as a friend.  Alice's request to Bob is sent through the route
    that is served and stored as a pending record, and yet the status
    check for Alice and Bob answers [none], where the claim has
    [pending]: the check reads the embedded arrays, which the served
    handler never writes.  Written by the second registration of the same
    route instead, the same request is answered [pending]. *)
Theorem queryStatus_misses_stored_request :
  sendRequest 10%N alice bob signed_up
  = (mkResponse 201 (JMessageRequestId "Friend request sent successfully" 10%N),
     alice_asked_bob)
  ∧ users (db alice_asked_bob) !! alice = Some alice_doc
  ∧ users (db alice_asked_bob) !! bob = Some bob_doc
  ∧ (bob ∉ userSchema.friends alice_doc)
  ∧ (alice ∉ userSchema.friends bob_doc)
  ∧ pending_request (db alice_asked_bob) alice bob
  ∧ queryStatus alice bob alice_asked_bob
    = (mkResponse 200 (JStatus "none"), alice_asked_bob)
  ∧ (queryStatus alice bob
       (post_friend_request_2 (Some alice) (Some bob) signed_up).2).1
    = mkResponse 200 (JStatus "pending").
Proof.
  split_and!; try (vm_compute; reflexivity).
  - cbn. apply not_elem_of_nil.
  - cbn. apply not_elem_of_nil.
  - exists 10%N. vm_compute. reflexivity.
Qed.

(** C2, at the failing input.  Alice's pending request to Bob is accepted;
    a second acceptance of the same request finds the record again and
    answers 200, not 404. *)
Theorem second_accept_is_not_NotFound :
  friendrequests (db alice_asked_bob) !! 10%N
  = Some (friendRequestSchema.mk alice bob pending)
  ∧ resolveRequest 10%N "accepted" alice_asked_bob
    = (mkResponse 200 (JMessage "Friend request accepted"), befriended)
  ∧ (resolveRequest 10%N "accepted" befriended).1
    = mkResponse 200 (JMessage "Friend request accepted")
  ∧ code (resolveRequest 10%N "accepted" befriended).1 ≠ 404.
Proof. split_and!; try (vm_compute; reflexivity). vm_compute. lia. Qed.

(** C4, counterexample.  While Alice's request to Bob is pending, Bob's
    request to Alice is answered 201, and two pending records stand. *)
Lemma reverse_request_is_accepted :
  friendrequests (db alice_asked_bob) !! 10%N
  = Some (friendRequestSchema.mk alice bob pending)
  ∧ sendRequest 11%N bob alice alice_asked_bob
    = (mkResponse 201 (JMessageRequestId "Friend request sent successfully" 11%N),
       both_asked)
  ∧ friendrequests (db both_asked) !! 10%N
    = Some (friendRequestSchema.mk alice bob pending)
  ∧ friendrequests (db both_asked) !! 11%N
    = Some (friendRequestSchema.mk bob alice pending).
Proof. split_and!; vm_compute; reflexivity. Qed.

(** C5, counterexample.  The pair Bob, Alice is not without relationship
    (Alice's request to Bob is pending), both exist and are distinct, and
    [sendRequest(bob,alice)] does not answer a conflict: it answers 201. *)
Lemma send_succeeds_despite_pending :
  pending_request (db alice_asked_bob) alice bob
  ∧ users (db alice_asked_bob) !! alice = Some alice_doc
  ∧ users (db alice_asked_bob) !! bob = Some bob_doc
  ∧ code (sendRequest 11%N bob alice alice_asked_bob).1 = 201
  ∧ code (sendRequest 11%N bob alice alice_asked_bob).1 ≠ 400.
Proof.
  split_and!; try (vm_compute; reflexivity).
  - exists 10%N. vm_compute. reflexivity.
  - vm_compute. lia.
Qed.


(** C9, counterexample.  Alice and Bob are friends and the second save of
    [removeFriendship(alice,bob)] fails: the answer is 500, Alice's friends
    array has lost Bob, Bob's still lists Alice.  Likewise an acceptance
    whose first [$addToSet] fails answers 500 with the request already
    marked [accepted] and nobody befriended. *)
Lemma partial_write_stays_visible :
  (userSchema.friends <$> users (db befriended_fourth_fails) !! alice = Some [bob]
   ∧ userSchema.friends <$> users (db befriended_fourth_fails) !! bob = Some [alice]
   ∧ (removeFriendship alice bob befriended_fourth_fails).1
     = mkResponse 500 (JMessage "Error removing friend")
   ∧ userSchema.friends
       <$> users (db (removeFriendship alice bob befriended_fourth_fails).2) !! alice
     = Some []
   ∧ userSchema.friends
       <$> users (db (removeFriendship alice bob befriended_fourth_fails).2) !! bob
     = Some [alice])
  ∧ (friendrequests (db alice_asked_bob_third_fails) !! 10%N
     = Some (friendRequestSchema.mk alice bob pending)
     ∧ (resolveRequest 10%N "accepted" alice_asked_bob_third_fails).1
       = mkResponse 500 (JMessage "Error updating friend request")
     ∧ friendrequests
         (db (resolveRequest 10%N "accepted" alice_asked_bob_third_fails).2) !! 10%N
       = Some (friendRequestSchema.mk alice bob accepted)
     ∧ users (db (resolveRequest 10%N "accepted" alice_asked_bob_third_fails).2)
       = users (db alice_asked_bob_third_fails)).
Proof. split_and!; vm_compute; reflexivity. Qed.

(** ** The theorems at concrete inputs *)

Lemma alice_asked_bob_store :
  db alice_asked_bob
  = mkStore {[alice := alice_doc; bob := bob_doc]}
      {[10%N := friendRequestSchema.mk alice bob pending]}.
Proof. vm_compute. reflexivity. Qed.

Lemma alice_ne_bob : alice ≠ bob.
Proof. discriminate. Qed.

Lemma sendRequest_only_creates_record_witness :
  sendRequest 10%N alice bob signed_up
  = (mkResponse 201 (JMessageRequestId "Friend request sent successfully" 10%N),
     alice_asked_bob)
  ∧ users (db alice_asked_bob) = users (db signed_up)
  ∧ friendrequests (db signed_up) !! 10%N = None
  ∧ friendrequests (db alice_asked_bob)
    = <[10%N := friendRequestSchema.mk alice bob pending]>
        (friendrequests (db signed_up)).
Proof.
  assert (Hrun : sendRequest 10%N alice bob signed_up
                 = (mkResponse 201
                      (JMessageRequestId "Friend request sent successfully" 10%N),
                    alice_asked_bob)) by (vm_compute; reflexivity).
  split; [exact Hrun|].
  exact (sendRequest_only_creates_record _ _ _ _ _ _ Hrun eq_refl).
Defined.

Lemma cancelRequest_spec_witness :
  cancelRequest 11%N (reliable (db alice_asked_bob))
  = (mkResponse 404 (JMessage "Friend request not found"),
     reliable (db alice_asked_bob))
  ∧ cancelRequest 10%N (reliable (db befriended))
    = (mkResponse 400 (JMessage "Only pending requests can be cancelled"),
       reliable (db befriended))
  ∧ ∃ s', cancelRequest 10%N (reliable (db alice_asked_bob))
          = (mkResponse 200 (JMessage "Friend request cancelled"), reliable s')
          ∧ friendrequests s' !! 10%N = None
          ∧ users s' = users (db alice_asked_bob).
Proof.
  split_and!.
  - apply (cancelRequest_spec (db alice_asked_bob) 11%N). vm_compute. reflexivity.
  - apply (proj1 (proj2 (cancelRequest_spec (db befriended) 10%N))
             (friendRequestSchema.mk alice bob accepted)).
    + vm_compute. reflexivity.
    + discriminate.
  - destruct (proj2 (proj2 (cancelRequest_spec (db alice_asked_bob) 10%N))
                (friendRequestSchema.mk alice bob pending))
      as (s' & Hrun & _ & Hgone & Husers).
    + vm_compute. reflexivity.
    + reflexivity.
    + exists s'. by split_and!.
Defined.

Lemma sendRequest_preconditions_witness :
  sendRequest 10%N alice alice (reliable (db signed_up))
  = (mkResponse 400 (JMessage "Cannot send request to yourself"),
     reliable (db signed_up))
  ∧ sendRequest 12%N alice bob (reliable (db befriended))
    = (mkResponse 400 (JMessage "Already friends"), reliable (db befriended))
  ∧ sendRequest 12%N alice bob (reliable (db alice_asked_bob))
    = (mkResponse 400 (JMessage "Friend request already sent"),
       reliable (db alice_asked_bob))
  ∧ sendRequest 10%N alice bob (reliable (db signed_up))
    = (mkResponse 201 (JMessageRequestId "Friend request sent successfully" 10%N),
       reliable (with_friendrequests
                   <[10%N := friendRequestSchema.mk alice bob pending]>
                   (db signed_up))).
Proof.
  split_and!.
  - by apply (sendRequest_preconditions (db signed_up) 10%N alice alice).
  - apply (proj1 (proj2 (sendRequest_preconditions (db befriended) 12%N alice bob))
             (userSchema.set_friends [bob] alice_doc)
             (userSchema.set_friends [alice] bob_doc)
             alice_ne_bob).
    + vm_compute. reflexivity.
    + vm_compute. reflexivity.
    + cbn. left.
  - apply (proj1 (proj2 (sendRequest_preconditions (db alice_asked_bob) 12%N alice bob))
             alice_doc bob_doc alice_ne_bob).
    + vm_compute. reflexivity.
    + vm_compute. reflexivity.
    + cbn. apply not_elem_of_nil.
    + exists 10%N. vm_compute. reflexivity.
  - apply (proj1 (proj2 (sendRequest_preconditions (db signed_up) 10%N alice bob))
             alice_doc bob_doc alice_ne_bob).
    + vm_compute. reflexivity.
    + vm_compute. reflexivity.
    + cbn. apply not_elem_of_nil.
    + intros [id Hid]. vm_compute in Hid. destruct id as [|[]]; discriminate.
    + vm_compute. reflexivity.
Defined.

Lemma alice_asked_bob_no_reverse :
  ¬ pending_request (db alice_asked_bob) bob alice.
Proof.
  rewrite alice_asked_bob_store. intros [id Hid]. cbn in Hid.
  apply lookup_singleton_Some in Hid as [_ Hid]. discriminate.
Qed.

Lemma pending_blocks_same_direction_only_witness :
  pending_request (db alice_asked_bob) alice bob
  ∧ (∃ message,
       (message = "Already friends" ∨ message = "Friend request already sent")
       ∧ sendRequest 11%N alice bob (reliable (db alice_asked_bob))
         = (mkResponse 400 (JMessage message), reliable (db alice_asked_bob)))
  ∧ (∃ s', sendRequest 11%N bob alice (reliable (db alice_asked_bob))
           = (mkResponse 201
                (JMessageRequestId "Friend request sent successfully" 11%N),
              reliable s')
           ∧ pending_request s' alice bob ∧ pending_request s' bob alice
           ∧ users s' = users (db alice_asked_bob)).
Proof.
  assert (Hp : pending_request (db alice_asked_bob) alice bob)
    by (exists 10%N; vm_compute; reflexivity).
  assert (HA : users (db alice_asked_bob) !! alice = Some alice_doc)
    by (vm_compute; reflexivity).
  assert (HB : users (db alice_asked_bob) !! bob = Some bob_doc)
    by (vm_compute; reflexivity).
  destruct (pending_blocks_same_direction_only
              (db alice_asked_bob) 11%N alice bob alice_doc bob_doc
              Hp alice_ne_bob HA HB) as [Hsame Hreverse].
  split_and!; [exact Hp|exact Hsame|].
  apply Hreverse.
  - cbn. apply not_elem_of_nil.
  - exact alice_asked_bob_no_reverse.
  - vm_compute. reflexivity.
Defined.

Lemma resolveRequest_accept_witness :
  friendrequests (db alice_asked_bob) !! 10%N
  = Some (friendRequestSchema.mk alice bob pending)
  ∧ ∃ s', resolveRequest 10%N "accepted" (reliable (db alice_asked_bob))
          = (mkResponse 200 (JMessage "Friend request accepted"), reliable s')
          ∧ friendrequests s' !! 10%N
            = Some (friendRequestSchema.mk alice bob accepted)
          ∧ (queryStatus alice bob (reliable s')).1
            = mkResponse 200 (JStatus "friends")
          ∧ userSchema.friends <$> users s' !! alice = Some [bob]
          ∧ userSchema.friends <$> users s' !! bob = Some [alice].
Proof.
  assert (Hr : friendrequests (db alice_asked_bob) !! 10%N
               = Some (friendRequestSchema.mk alice bob pending))
    by (vm_compute; reflexivity).
  split; [exact Hr|].
  destruct (resolveRequest_accept (db alice_asked_bob) 10%N alice bob
              alice_doc bob_doc Hr)
    as (s' & Hrun & Hreqs & Hstatus & HfA & HfB & _).
  - vm_compute. reflexivity.
  - vm_compute. reflexivity.
  - exists s'. split_and!; [exact Hrun| |exact Hstatus|exact HfA|exact HfB].
    rewrite Hreqs. apply lookup_insert_eq.
Defined.


Lemma removeFriendship_spec_witness :
  users (db befriended) !! alice = Some (userSchema.set_friends [bob] alice_doc)
  ∧ users (db befriended) !! bob = Some (userSchema.set_friends [alice] bob_doc)
  ∧ ∃ s', removeFriendship alice bob (reliable (db befriended))
          = (mkResponse 200 (JMessage "Friend removed successfully"), reliable s')
          ∧ users s' !! alice = Some alice_doc
          ∧ users s' !! bob = Some bob_doc
          ∧ friendrequests s' = friendrequests (db befriended).
Proof.
  assert (HA : users (db befriended) !! alice
               = Some (userSchema.set_friends [bob] alice_doc))
    by (vm_compute; reflexivity).
  assert (HB : users (db befriended) !! bob
               = Some (userSchema.set_friends [alice] bob_doc))
    by (vm_compute; reflexivity).
  split_and!; [exact HA|exact HB|].
  destruct (removeFriendship_spec (db befriended) alice bob _ _ HA HB)
    as (s' & Hrun & Hreqs & _ & Hlose).
  destruct (Hlose alice_ne_bob) as (uA' & uB' & HA' & HB' & -> & -> & _).
  exists s'. split_and!; [exact Hrun|exact HA'|exact HB'|exact Hreqs].
Defined.

Lemma failed_operation_unchanged_witness :
  app 10%N (POST_friend_request (Some alice) (Some bob))
      (mkWorld (db signed_up) [false; false; true])
  = (mkResponse 500 (JMessage "Error sending friend request"), signed_up)
  ∧ 400 ≤ 500
  ∧ db signed_up = db (mkWorld (db signed_up) [false; false; true]).
Proof.
  assert (Hrun : app 10%N (POST_friend_request (Some alice) (Some bob))
                     (mkWorld (db signed_up) [false; false; true])
                 = (mkResponse 500 (JMessage "Error sending friend request"),
                    signed_up)) by (vm_compute; reflexivity).
  split_and!; [exact Hrun|lia|].
  apply (failed_operation_unchanged _ _ _ _ _ Hrun).
  - cbn. lia.
  - right. reflexivity.
Defined.

Lemma post_friend_request_2_marks_witness :
  ∃ s' uA' uB',
    post_friend_request_2 (Some alice) (Some bob) (reliable (db signed_up))
    = (mkResponse 201 (JMessage "Friend request sent successfully"), reliable s')
    ∧ users s' !! alice = Some uA' ∧ users s' !! bob = Some uB'
    ∧ bob ∈ userSchema.outgoingRequests uA'
    ∧ alice ∈ userSchema.incomingRequests uB'
    ∧ (queryStatus alice bob (reliable s')).1 = mkResponse 200 (JStatus "pending").
Proof.
  apply (post_friend_request_2_marks (db signed_up) alice bob alice_doc bob_doc
           alice_ne_bob).
  - vm_compute. reflexivity.
  - vm_compute. reflexivity.
  - cbn. apply not_elem_of_nil.
  - cbn. apply not_elem_of_nil.
  - cbn. apply not_elem_of_nil.
Defined.

Lemma sendRequest_keeps_queryStatus_witness :
  sendRequest 10%N alice bob signed_up
  = (mkResponse 201 (JMessageRequestId "Friend request sent successfully" 10%N),
     alice_asked_bob)
  ∧ (queryStatus alice bob (reliable (db alice_asked_bob))).1
    = (queryStatus alice bob (reliable (db signed_up))).1.
Proof.
  assert (Hrun : sendRequest 10%N alice bob signed_up
                 = (mkResponse 201
                      (JMessageRequestId "Friend request sent successfully" 10%N),
                    alice_asked_bob)) by (vm_compute; reflexivity).
  split; [exact Hrun|].
  exact (sendRequest_keeps_queryStatus _ _ _ _ _ _ _ _ Hrun eq_refl).
Defined.

Lemma put_friend_request_2_resolves_witness :
  ∃ s' user,
    put_friend_request_2 (Some bob) (Some alice) "accepted"
      (reliable (db bob_marked_alice))
    = (mkResponse 200
         (JMessageStatusUser "Friend request accepted" "accepted" user),
       reliable s')
    ∧ (queryStatus bob alice (reliable s')).1 = mkResponse 200 (JStatus "friends")
    ∧ ¬ marks_request s' bob alice
    ∧ (put_friend_request_2 (Some bob) (Some alice) "accepted" (reliable s')).1
      = mkResponse 404 (JMessage "Friend request not found").
Proof.
  apply (put_friend_request_2_resolves (db bob_marked_alice) bob alice
           (userSchema.set_outgoingRequests [alice] bob_doc)
           (userSchema.set_incomingRequests [bob] alice_doc)).
  - discriminate.
  - vm_compute. reflexivity.
  - vm_compute. reflexivity.
  - cbn. left.
  - cbn. left.
Defined.

(** ** Every effect on the store is a sequence of writes *)

Lemma writes_accept (s : Store) (requestId : ObjectId)
    (r : friendRequestSchema.doc) (st : RequestStatus) :
  friendrequests s !! requestId = Some r →
  let s1 := with_friendrequests (alter (friendRequestSchema.set_status st) requestId) s in
  let s2 := with_users
              (alter (λ u, userSchema.set_friends
                             (addToSet (friendRequestSchema.toUser r)
                                (userSchema.friends u)) u)
                 (friendRequestSchema.fromUser r)) s1 in
  let s3 := with_users
              (alter (λ u, userSchema.set_friends
                             (addToSet (friendRequestSchema.fromUser r)
                                (userSchema.friends u)) u)
                 (friendRequestSchema.toUser r)) s2 in
  rtc write s s1 ∧ rtc write s s2 ∧ rtc write s s3.
Proof.
  intros Hr s1 s2 s3.
  assert (H1 : write s s1) by apply write_status.
  assert (Hr1 : friendrequests s1 !! requestId
                = Some (friendRequestSchema.set_status st r)).
  { subst s1. cbn. by rewrite lookup_alter_eq, Hr. }
  assert (H2 : write s1 s2).
  { eapply write_addToSet; [exact Hr1|]. left. by destruct r. }
  assert (H3 : write s2 s3).
  { eapply (write_addToSet s2 requestId); [exact Hr1|]. right. by destruct r. }
  split_and!.
  - by apply rtc_once.
  - by eapply rtc_l; [|apply rtc_once].
  - eapply rtc_l; [exact H1|]. by eapply rtc_l; [|apply rtc_once].
Qed.

Lemma filter_ne_subseteq x l : filter_ne x l ⊆ l.
Proof. intros y Hy. by apply elem_of_filter_ne in Hy as [_ ?]. Qed.

Lemma writes_unfriend (s : Store) (A B : ObjectId) (uA uB : userSchema.doc) :
  users s !! A = Some uA → users s !! B = Some uB →
  let s1 := with_users
              (alter (userSchema.set_friends (filter_ne B (userSchema.friends uA))) A) s in
  let s2 := with_users
              (alter (userSchema.set_friends (filter_ne A (userSchema.friends uB))) B) s in
  let s12 := with_users
               (alter (userSchema.set_friends (filter_ne A (userSchema.friends uB))) B) s1 in
  rtc write s s1 ∧ rtc write s s2 ∧ rtc write s s12.
Proof.
  intros HA HB s1 s2 s12.
  assert (H1 : write s s1).
  { apply write_filter. intros u Hu. simplify_eq. apply filter_ne_subseteq. }
  assert (H2 : write s s2).
  { apply write_filter. intros u Hu. simplify_eq. apply filter_ne_subseteq. }
  assert (H12 : write s1 s12).
  { apply write_filter. intros u Hu. subst s1. cbn in Hu.
    destruct (decide (A = B)) as [->|Hne].
    - rewrite lookup_alter_eq, HA in Hu. cbn in Hu. simplify_eq. cbn. done.
    - rewrite lookup_alter_ne in Hu by done. simplify_eq. apply filter_ne_subseteq. }
  split_and!.
  - by apply rtc_once.
  - by apply rtc_once.
  - eapply rtc_l; [exact H1|by apply rtc_once].
Qed.

(** Whatever the request and whatever fails, the store after it is reached
    from the store before it by writes. *)
Lemma app_writes (newId : ObjectId) (r : Request) (w : World) :
  rtc write (db w) (db (app newId r w).2).
Proof.
  destruct r; unfold app; cbn [omap layers list_omap].
  all: unfold post_signup, get_friend_requests_check, post_friend_request_1,
         delete_friend_request, get_friend_requests_1, put_friend_request_1,
         get_friends, delete_friends, try_catch, User.create.
  all: cbn.
  all: repeat (case_match; cbn in *; simplify_eq); try reflexivity.
  all: try (apply rtc_once;
            first [ by apply write_request
                  | apply write_delete
                  | apply write_status ]).
  all: try match goal with
       | H : friendrequests _ !! _ = Some _ |- _ =>
           first [ apply (writes_accept _ _ _ _ H)
                 | apply (proj1 (proj2 (writes_accept _ _ _ _ H))) ]
       end.
  all: try match goal with
       | H1 : users _ !! ?A = Some _, H2 : users _ !! ?B = Some _ |- _ =>
           first [ apply (writes_unfriend _ A B _ _ H1 H2)
                 | apply (proj1 (writes_unfriend _ A B _ _ H1 H2))
                 | apply (proj1 (proj2 (writes_unfriend _ A B _ _ H1 H2))) ]
       end.
  all: try match goal with
       | H : bool_decide (_ ∨ _ ∨ _) = false |- _ =>
           apply bool_decide_eq_false in H;
           apply rtc_once, write_user; [done|done|tauto..]
       end.
Qed.

Lemma serve_writes (rs : list (ObjectId * Request)) (w : World) :
  rtc write (db w) (db (serve rs w).2).
Proof.
  revert w. induction rs as [|[newId r] rs IH]; intros w; [reflexivity|].
  cbn. pose proof (app_writes newId r w) as Hstep.
  destruct (app newId r w) as [resp w1]. specialize (IH w1).
  destruct (serve rs w1) as [resps w2]. cbn in *. by etrans.
Qed.

(** ** Invariants of the store *)

Lemma write_tidy (s s' : Store) : write s s' → tidy s → tidy s'.
Proof.
  intros Hw [Hreq Husr]. destruct Hw; split; cbn; try done.
  - intros j u. rewrite lookup_insert. case_decide; [|by apply Husr].
    intros [= <-]. cbn. split_and!; [apply not_elem_of_nil|done|done].
  - intros j r. rewrite lookup_insert. case_decide; [|by apply Hreq].
    by intros [= <-].
  - intros j r. rewrite lookup_alter. case_decide; [|by apply Hreq].
    destruct (friendrequests s !! id) as [r0|] eqn:Hr0; [|done].
    intros [= <-]. cbn. by eapply Hreq.
  - intros j r Hj. apply lookup_delete_Some in Hj as [_ Hj]. by eapply Hreq.
  - intros j u. rewrite lookup_alter. case_decide; [|by apply Husr]. subst j.
    destruct (users s !! A) as [u0|] eqn:Hu0; [|done].
    intros [= <-]. cbn. destruct (Husr _ _ Hu0) as (Hself & Ho & Hi).
    split_and!; [|done|done].
    rewrite elem_of_addToSet. intros [->|?]; [|done].
    specialize (Hreq _ _ H). destruct H0 as [[-> Hx]|[-> Hx]]; congruence.
  - intros j u. rewrite lookup_alter. case_decide; [|by apply Husr]. subst j.
    destruct (users s !! A) as [u0|] eqn:Hu0; [|done].
    intros [= <-]. cbn. destruct (Husr _ _ Hu0) as (Hself & Ho & Hi).
    split_and!; [|done|done]. intros Hin. by apply Hself, (H u0).
Qed.

Lemma tidy_empty : tidy empty_store.
Proof. split; intros ? ?; cbn; by rewrite lookup_empty. Qed.

Lemma rtc_write_tidy (s s' : Store) : rtc write s s' → tidy s → tidy s'.
Proof.
  intros Hw. induction Hw as [|s1 s2 s3 H12 _ IH]; [done|].
  intros Ht. by eapply IH, write_tidy.
Qed.

Lemma session_tidy_step (newId : ObjectId) (r : Request) (w : World) :
  tidy (db w) → tidy (db (app newId r w).2).
Proof. apply rtc_write_tidy, app_writes. Qed.

(** Invariant of the friend-request workflow.  If, before a session, no
    request goes from a user to itself, no user is its own friend and all
    [outgoingRequests] and [incomingRequests] arrays are empty, then the
    same holds after it, whatever the requests and whatever fails: the
    reachable handlers never write the two request arrays. *)
Theorem session_tidy (rs : list (ObjectId * Request)) (w : World) :
  tidy (db w) → tidy (db (serve rs w).2).
Proof.
  apply rtc_write_tidy, serve_writes.
Qed.

(** On a tidy store the status check, whatever fails, does not answer
    [pending], and no other reachable handler answers a status. *)
Lemma app_never_pending (newId : ObjectId) (r : Request) (w : World) :
  tidy (db w) → body (app newId r w).1 ≠ JStatus "pending".
Proof.
  intros [_ Husr].
  destruct r; unfold app; cbn [omap layers list_omap].
  all: unfold post_signup, get_friend_requests_check, post_friend_request_1,
         delete_friend_request, get_friend_requests_1, put_friend_request_1,
         get_friends, delete_friends, try_catch, User.create.
  all: cbn.
  all: repeat (case_match; cbn in *; simplify_eq); try done.
  all: repeat match goal with
       | H : users _ !! _ = Some _ |- _ =>
           destruct (Husr _ _ H) as (_ & ? & ?); clear H
       end.
  all: repeat match goal with
       | H : userSchema.outgoingRequests _ = [] |- _ => rewrite H in *; clear H
       | H : userSchema.incomingRequests _ = [] |- _ => rewrite H in *; clear H
       end.
  all: by cbn in *.
Qed.

(** In a session that starts from a tidy store (the empty database is
    one), no answer is the status [pending], whatever is requested and
    whatever fails: a request that was sent is never reported as
    pending. *)
Theorem session_never_pending
    (rs : list (ObjectId * Request)) (w : World) (resp : Response) :
  tidy (db w) → resp ∈ (serve rs w).1 → body resp ≠ JStatus "pending".
Proof.
  revert w. induction rs as [|[newId r] rs IH]; intros w Ht; cbn.
  { intros Hin. by apply elem_of_nil in Hin. }
  pose proof (app_never_pending newId r w Ht) as Hhere.
  pose proof (session_tidy_step newId r w Ht) as Ht1.
  destruct (app newId r w) as [resp1 w1]. specialize (IH w1 Ht1).
  destruct (serve rs w1) as [resps w2]. cbn in *.
  intros [->|Hin]%elem_of_cons; [done|by apply IH].
Qed.

Lemma set_friends_fields l u :
  userSchema.name (userSchema.set_friends l u) = userSchema.name u
  ∧ userSchema.email (userSchema.set_friends l u) = userSchema.email u
  ∧ userSchema.password (userSchema.set_friends l u) = userSchema.password u
  ∧ userSchema.profileImage (userSchema.set_friends l u) = userSchema.profileImage u.
Proof. done. Qed.

(** A write to the users either inserts a new user or changes the friends
    array of a stored one. *)
Lemma write_users (s s' : Store) (id : ObjectId) (u' : userSchema.doc) :
  write s s' → users s' !! id = Some u' →
  (users s !! id = None
   ∧ ∃ name email password,
       u' = User.new name email password
       ∧ name ≠ "" ∧ email ≠ "" ∧ password ≠ ""
       ∧ (∀ j u, users s !! j = Some u → userSchema.email u ≠ email)
       ∧ (∀ j, users s !! j = None → is_Some (users s' !! j) → j = id))
  ∨ (∃ u l, users s !! id = Some u ∧ u' = userSchema.set_friends l u).
Proof.
  intros Hw. destruct Hw as [nid name email password Hfresh Hmail Hn He Hp
                            | | | | rid r A x Hr HA | A l Hl]; cbn.
  - rewrite lookup_insert. case_decide as Hid.
    + subst nid. intros [= <-]. left. split; [done|].
      exists name, email, password. split_and!; try done.
      * intros j u Hu Heq. rewrite first_match_None in Hmail.
        specialize (Hmail _ _ Hu). by apply bool_decide_eq_false in Hmail.
      * intros j Hj [v Hv]. apply lookup_insert_Some in Hv as [[? ?]|[? ?]];
          [done|congruence].
    + intros Hu. right. exists u', (userSchema.friends u').
      by rewrite set_friends_same.
  - intros Hu. right. exists u', (userSchema.friends u'). by rewrite set_friends_same.
  - intros Hu. right. exists u', (userSchema.friends u'). by rewrite set_friends_same.
  - intros Hu. right. exists u', (userSchema.friends u'). by rewrite set_friends_same.
  - rewrite lookup_alter. case_decide as Hid.
    + subst id. destruct (users s !! A) as [u|]; [|done]. intros [= <-].
      right. by eexists _, _.
    + intros Hu. right. exists u', (userSchema.friends u'). by rewrite set_friends_same.
  - rewrite lookup_alter. case_decide as Hid.
    + subst id. destruct (users s !! A) as [u|]; [|done]. intros [= <-].
      right. by eexists _, _.
    + intros Hu. right. exists u', (userSchema.friends u'). by rewrite set_friends_same.
Qed.

(** No write removes a user or changes anything but a friends array. *)
Lemma write_keeps_user (s s' : Store) (id : ObjectId) (u : userSchema.doc) :
  write s s' → users s !! id = Some u →
  ∃ l, users s' !! id = Some (userSchema.set_friends l u).
Proof.
  intros Hw Hu. destruct Hw as [nid name email password Hfresh Hmail Hn He Hp
                               | | | | rid r A x Hr HA | A l Hl]; cbn.
  - exists (userSchema.friends u). rewrite lookup_insert_ne, set_friends_same; [done|].
    by intros ->; rewrite Hfresh in Hu.
  - exists (userSchema.friends u). by rewrite set_friends_same.
  - exists (userSchema.friends u). by rewrite set_friends_same.
  - exists (userSchema.friends u). by rewrite set_friends_same.
  - rewrite lookup_alter. case_decide as Hid.
    + subst id. rewrite Hu. by eexists.
    + exists (userSchema.friends u). by rewrite set_friends_same.
  - rewrite lookup_alter. case_decide as Hid.
    + subst id. rewrite Hu. by eexists.
    + exists (userSchema.friends u). by rewrite set_friends_same.
Qed.

Lemma write_registered (s s' : Store) : write s s' → registered s → registered s'.
Proof.
  intros Hw [Huniq Hfull]. split.
  - intros i j ui uj Hi Hj Heq.
    destruct (write_users _ _ _ _ Hw Hi)
      as [(Hni & ni & ei & pi & -> & _ & _ & _ & Hother & Honly)
         |(vi & li & Hvi & ->)];
      destruct (write_users _ _ _ _ Hw Hj)
        as [(Hnj & nj & ej & pj & -> & _ & _ & _ & Hother' & Honly')
           |(vj & lj & Hvj & ->)];
      cbn in *.
    + symmetry. by apply Honly.
    + by destruct (Hother _ _ Hvj).
    + by destruct (Hother' _ _ Hvi).
    + by eapply Huniq.
  - intros i u Hi.
    destruct (write_users _ _ _ _ Hw Hi)
      as [(_ & n & e & p & -> & ? & ? & ? & _ & _)|(v & l & Hv & ->)]; [done|].
    by apply (Hfull _ _ Hv).
Qed.

Lemma registered_empty : registered empty_store.
Proof. split; intros *; cbn; by rewrite lookup_empty. Qed.

(** Accounts stay distinct.  If before a session no two users share an
    email and no user has an empty name, email or password, the same
    holds after it, whatever the requests and whatever fails. *)
Theorem session_registered (rs : list (ObjectId * Request)) (w : World) :
  registered (db w) → registered (db (serve rs w).2).
Proof.
  pose proof (serve_writes rs w) as Hw.
  induction Hw as [|s1 s2 s3 H12 _ IH]; [done|].
  intros Hr. by eapply IH, write_registered.
Qed.

(** No handler removes a user or changes a name, an email, a password or a
    profile image: a user stored before a session is stored after it with
    the same four fields, whatever the requests and whatever fails. *)
Theorem session_keeps_users
    (rs : list (ObjectId * Request)) (w : World) (id : ObjectId) (u : userSchema.doc) :
  users (db w) !! id = Some u →
  ∃ u', users (db (serve rs w).2) !! id = Some u'
        ∧ userSchema.name u' = userSchema.name u
        ∧ userSchema.email u' = userSchema.email u
        ∧ userSchema.password u' = userSchema.password u
        ∧ userSchema.profileImage u' = userSchema.profileImage u.
Proof.
  pose proof (serve_writes rs w) as Hw. revert u.
  induction Hw as [|s1 s2 s3 H12 _ IH]; intros u Hu; [by exists u|].
  destruct (write_keeps_user _ _ _ _ H12 Hu) as [l Hl].
  destruct (IH _ Hl) as (u' & Hu' & Hn & He & Hp & Hi). by exists u'.
Qed.

(** ** How the operations compose *)

Lemma delete_friend_request_reliable (s : Store) (requestId : ObjectId) :
  delete_friend_request requestId (reliable s) =
  match friendrequests s !! requestId with
  | None => (mkResponse 404 (JMessage "Friend request not found"), reliable s)
  | Some request =>
      if decide (friendRequestSchema.status request ≠ pending) then
        (mkResponse 400 (JMessage "Only pending requests can be cancelled"),
         reliable s)
      else
        (mkResponse 200 (JMessage "Friend request cancelled"),
         reliable (with_friendrequests (delete requestId) s))
  end.
Proof.
  unfold delete_friend_request, try_catch. cbn.
  destruct (friendrequests s !! requestId) as [r|]; [|done]. cbn.
  by destruct (decide (friendRequestSchema.status r ≠ pending)).
Qed.

(** What a 201 of [sendRequest] on a store that does not fail has done. *)
Lemma sendRequest_reliable_success (s : Store) (newId A B : ObjectId)
    (resp : Response) (w1 : World) :
  sendRequest newId A B (reliable s) = (resp, w1) → code resp = 201 →
  A ≠ B ∧ friendrequests s !! newId = None
  ∧ w1 = reliable (with_friendrequests
                     <[newId := friendRequestSchema.mk A B pending]> s).
Proof.
  unfold sendRequest. rewrite app_POST_friend_request.
  destruct (decide (A = B)) as [->|Hne].
  { unfold post_friend_request_1, try_catch. rewrite decide_True by done.
    cbn. by intros [= <- <-]. }
  rewrite post_friend_request_1_reliable by done.
  repeat case_match; intros [= <- <-]; cbn; intros; by simplify_eq.
Qed.

(** Sending a request and cancelling it is a round trip: after a
    successful [sendRequest], the cancellation of the new request answers
    200 and leaves the store exactly as it was before the request was
    sent. *)
Theorem send_then_cancel_restores (s : Store) (newId A B : ObjectId)
    (resp : Response) (w1 : World) :
  sendRequest newId A B (reliable s) = (resp, w1) → code resp = 201 →
  cancelRequest newId w1
  = (mkResponse 200 (JMessage "Friend request cancelled"), reliable s).
Proof.
  intros Hrun Hcode.
  destruct (sendRequest_reliable_success _ _ _ _ _ _ Hrun Hcode)
    as (Hne & Hfresh & ->).
  unfold cancelRequest, app; cbn [omap layers list_omap].
  rewrite delete_friend_request_reliable. cbn.
  rewrite lookup_insert_eq. cbn. rewrite decide_False by (by intros []).
  destruct s as [us rs]. unfold with_friendrequests; cbn in *.
  by rewrite delete_insert_id.
Qed.

Lemma filter_ne_addToSet x l : x ∉ l → filter_ne x (addToSet x l) = l.
Proof.
  intros Hx. unfold addToSet. rewrite (proj2 (includes_false _ _) Hx).
  unfold filter_ne. rewrite filter_app, filter_cons_False, filter_nil by (by intros []).
  rewrite app_nil_r. by apply filter_ne_absent.
Qed.

Lemma filter_ne_idemp x l : filter_ne x (filter_ne x l) = filter_ne x l.
Proof. apply filter_ne_absent. rewrite elem_of_filter_ne. by intros [? _]. Qed.

Lemma set_friends_set_friends l l' u :
  userSchema.set_friends l (userSchema.set_friends l' u) = userSchema.set_friends l u.
Proof. done. Qed.

(** Accepting and then removing the friendship is a round trip on the
    users: for distinct existing users who did not list each other, the
    user collection after [resolveRequest(accepted)] followed by
    [removeFriendship] is the one before; only the request stays behind,
    marked [accepted]. *)
Theorem accept_then_remove_restores_users
    (s : Store) (requestId A B : ObjectId) (st : RequestStatus)
    (uA uB : userSchema.doc) :
  friendrequests s !! requestId = Some (friendRequestSchema.mk A B st) →
  A ≠ B → users s !! A = Some uA → users s !! B = Some uB →
  B ∉ userSchema.friends uA → A ∉ userSchema.friends uB →
  removeFriendship A B (resolveRequest requestId "accepted" (reliable s)).2
  = (mkResponse 200 (JMessage "Friend removed successfully"),
     reliable (mkStore (users s)
                 (<[requestId := friendRequestSchema.mk A B accepted]>
                    (friendrequests s)))).
Proof.
  intros Hr Hne HA HB HBA HAB.
  unfold resolveRequest. rewrite app_PUT_friend_request.
  rewrite (put_friend_request_1_reliable s requestId "accepted" accepted _ Hr)
    by done.
  rewrite decide_True by done. cbn [snd friendRequestSchema.fromUser
    friendRequestSchema.toUser friendRequestSchema.set_status].
  unfold removeFriendship, app; cbn [omap layers list_omap].
  pose proof (befriend_friends_fst A B (users s) uA HA) as HfA.
  pose proof (befriend_friends_snd A B (users s) uB HB) as HfB.
  destruct (befriend A B (users s) !! A) as [uA'|] eqn:HA'; [|done].
  destruct (befriend A B (users s) !! B) as [uB'|] eqn:HB'; [|done].
  cbn in HfA, HfB. simplify_eq.
  erewrite delete_friends_reliable by (cbn; eassumption).
  f_equal. unfold with_users, reliable. cbn. f_equal. f_equal.
  rewrite HfA, HfB, !filter_ne_addToSet by done.
  apply map_eq. intros u. unfold befriend in *.
  rewrite lookup_alter_ne, lookup_alter_eq, HA in HA' by done.
  rewrite lookup_alter_eq, lookup_alter_ne, HB in HB' by done.
  cbn in HA', HB'. simplify_eq.
  rewrite !lookup_alter. repeat case_decide; simplify_eq; rewrite ?HA, ?HB; cbn;
    by rewrite ?set_friends_set_friends, ?set_friends_same.
Qed.

(** Removing a friendship twice is removing it once: for distinct existing
    users the second [removeFriendship] answers 200 and leaves the store
    exactly as the first one left it. *)
Theorem removeFriendship_idempotent
    (s : Store) (A B : ObjectId) (uA uB : userSchema.doc) :
  A ≠ B → users s !! A = Some uA → users s !! B = Some uB →
  removeFriendship A B (removeFriendship A B (reliable s)).2
  = (mkResponse 200 (JMessage "Friend removed successfully"),
     (removeFriendship A B (reliable s)).2).
Proof.
  intros Hne HA HB. unfold removeFriendship, app; cbn [omap layers list_omap].
  rewrite (delete_friends_reliable s A B uA uB HA HB). cbn [snd].
  set (fA := userSchema.set_friends (filter_ne B (userSchema.friends uA))).
  set (fB := userSchema.set_friends (filter_ne A (userSchema.friends uB))).
  assert (HA' : users (with_users (λ m, alter fB B (alter fA A m)) s) !! A
                = Some (fA uA)).
  { cbn. by rewrite lookup_alter_ne, lookup_alter_eq, HA. }
  assert (HB' : users (with_users (λ m, alter fB B (alter fA A m)) s) !! B
                = Some (fB uB)).
  { cbn. by rewrite lookup_alter_eq, lookup_alter_ne, HB. }
  rewrite (delete_friends_reliable _ A B _ _ HA' HB').
  f_equal. unfold with_users, reliable. cbn -[filter_ne]. f_equal. f_equal.
  subst fA fB. cbn -[filter_ne]. rewrite !filter_ne_idemp.
  apply map_eq. intros u. rewrite !lookup_alter.
  repeat case_decide; simplify_eq; rewrite ?HA, ?HB; by cbn.
Qed.

Lemma befriend_idemp A B m : befriend A B (befriend A B m) = befriend A B m.
Proof.
  apply map_eq. intros u. unfold befriend. rewrite !lookup_alter.
  repeat case_decide; simplify_eq; destruct (m !! u) as [d|]; cbn; try done.
  all: by rewrite ?addToSet_idemp.
Qed.

(** Accepting twice is accepting once: after [resolveRequest(accepted)]
    on a stored request, whatever its status, a second
    [resolveRequest(accepted)] of the same request answers 200 again and
    leaves the store exactly as the first one left it. *)
Theorem accept_idempotent
    (s : Store) (requestId : ObjectId) (r : friendRequestSchema.doc) :
  friendrequests s !! requestId = Some r →
  resolveRequest requestId "accepted"
    (resolveRequest requestId "accepted" (reliable s)).2
  = (mkResponse 200 (JMessage "Friend request accepted"),
     (resolveRequest requestId "accepted" (reliable s)).2).
Proof.
  intros Hr. unfold resolveRequest. rewrite !app_PUT_friend_request.
  rewrite (put_friend_request_1_reliable s requestId "accepted" accepted _ Hr)
    by done.
  rewrite decide_True by done. cbn [snd].
  erewrite put_friend_request_1_reliable;
    [|cbn; apply lookup_insert_eq|done].
  rewrite decide_True by done. f_equal. unfold reliable. f_equal.
  destruct r as [A B st]. cbn -[befriend]. by rewrite befriend_idemp, insert_insert_eq.
Qed.

(** A resolution is not final.  For a stored request from [A] to [B]
    between existing users: rejecting it and then accepting it makes
    [queryStatus(A,B)] answer [friends]; accepting it and then rejecting
    it marks it [rejected] while [queryStatus(A,B)] still answers
    [friends].  Both second calls answer 200. *)
Theorem resolution_is_not_final
    (s : Store) (requestId A B : ObjectId) (st : RequestStatus)
    (uA uB : userSchema.doc) :
  friendrequests s !! requestId = Some (friendRequestSchema.mk A B st) →
  users s !! A = Some uA → users s !! B = Some uB →
  (∃ s2,
     resolveRequest requestId "accepted"
       (resolveRequest requestId "rejected" (reliable s)).2
     = (mkResponse 200 (JMessage "Friend request accepted"), reliable s2)
     ∧ friendrequests s2 !! requestId = Some (friendRequestSchema.mk A B accepted)
     ∧ (queryStatus A B (reliable s2)).1 = mkResponse 200 (JStatus "friends"))
  ∧ (∃ s2,
       resolveRequest requestId "rejected"
         (resolveRequest requestId "accepted" (reliable s)).2
       = (mkResponse 200 (JMessage "Friend request rejected"), reliable s2)
       ∧ friendrequests s2 !! requestId = Some (friendRequestSchema.mk A B rejected)
       ∧ (queryStatus A B (reliable s2)).1 = mkResponse 200 (JStatus "friends")).
Proof.
  intros Hr HA HB.
  assert (Hfriends : ∀ rs, (queryStatus A B (reliable (mkStore (befriend A B (users s)) rs))).1
                           = mkResponse 200 (JStatus "friends")).
  { intros rs. rewrite queryStatus_reliable. cbn -[befriend].
    pose proof (befriend_friends_fst A B (users s) uA HA) as HfA.
    pose proof (befriend_friends_snd A B (users s) uB HB) as HfB.
    destruct (befriend A B (users s) !! A) as [uA'|]; [|done].
    destruct (befriend A B (users s) !! B) as [uB'|]; [|done].
    cbn in HfA. simplify_eq. rewrite HfA.
    rewrite (proj2 (includes_true _ _)); [done|]. apply elem_of_addToSet. by left. }
  unfold resolveRequest. rewrite !app_PUT_friend_request. split.
  - rewrite (put_friend_request_1_reliable s requestId "rejected" rejected _ Hr)
      by done.
    rewrite decide_False by done. cbn [snd].
    erewrite put_friend_request_1_reliable; [|cbn; apply lookup_insert_eq|done].
    rewrite decide_True by done. cbn -[befriend].
    eexists. split; [reflexivity|]. cbn -[befriend].
    split; [by rewrite lookup_insert_eq|apply Hfriends].
  - rewrite (put_friend_request_1_reliable s requestId "accepted" accepted _ Hr)
      by done.
    rewrite decide_True by done. cbn [snd].
    erewrite put_friend_request_1_reliable; [|cbn; apply lookup_insert_eq|done].
    rewrite decide_False by done. cbn -[befriend].
    eexists. split; [reflexivity|]. cbn -[befriend].
    split; [by rewrite lookup_insert_eq|apply Hfriends].
Qed.

(** A string outside the enum is refused without a trace: for a stored
    request, [resolveRequest] with a status string that is none of
    [pending], [accepted], [rejected] answers 500 and changes nothing;
    and whatever fails, such a call never changes the store.  (A body
    without [status] is outside the model, and nothing is said of it.) *)
Theorem resolveRequest_invalid_status
    (requestId : ObjectId) (status : string) (w : World) :
  enum_status status = None →
  db (resolveRequest requestId status w).2 = db w
  ∧ (faults w = [] → is_Some (friendrequests (db w) !! requestId) →
     (resolveRequest requestId status w).1
     = mkResponse 500 (JMessage "Error updating friend request")).
Proof.
  intros Hst. unfold resolveRequest. rewrite app_PUT_friend_request.
  unfold put_friend_request_1, try_catch. cbn. split.
  - repeat (case_match; cbn in *; simplify_eq); done.
  - intros Hf [r Hr]. rewrite Hf, Hr. cbn. by rewrite Hst.
Qed.

(** ** Listing requests and friends *)

Lemma get_friend_requests_1_reliable (s : Store) (userId : ObjectId) :
  get_friend_requests_1 userId (reliable s) =
  (mkResponse 200
     (JRequests
        ((λ kd, (kd, User.summary false s (friendRequestSchema.fromUser kd.2)))
           <$> filter (λ kd, friendRequestSchema.toUser kd.2 = userId
                             ∧ friendRequestSchema.status kd.2 = pending)
                      (map_to_list (friendrequests s)))),
   reliable s).
Proof. reflexivity. Qed.

(** [GET /api/friend-requests/:userId] as served: it answers 200 for every
    [userId], known or not, with exactly one entry for each stored request
    that is addressed to [userId] and pending, carrying the name and email
    of its sender when that user exists; it changes nothing. *)
Theorem listIncoming_spec (s : Store) (userId : ObjectId) :
  ∃ l,
    listIncoming userId (reliable s) = (mkResponse 200 (JRequests l), reliable s)
    ∧ NoDup l
    ∧ ∀ id r sender,
        (id, r, sender) ∈ l ↔
          friendrequests s !! id = Some r
          ∧ friendRequestSchema.toUser r = userId
          ∧ friendRequestSchema.status r = pending
          ∧ sender = User.summary false s (friendRequestSchema.fromUser r).
Proof.
  eexists. split; [unfold listIncoming; rewrite app_GET_friend_requests;
                   apply get_friend_requests_1_reliable|].
  split.
  - apply NoDup_fmap_2; [by intros [] [] [= -> ->]|].
    apply NoDup_filter, NoDup_map_to_list.
  - intros id r sender. rewrite list_elem_of_fmap. split.
    + intros ([id' r'] & [= -> -> ->] & Hin).
      apply list_elem_of_filter in Hin as [[Hto Hst] Hin].
      apply elem_of_map_to_list in Hin. by cbn in *.
    + intros (Hr & Hto & Hst & ->). exists (id, r). split; [done|].
      apply list_elem_of_filter. split; [done|]. by apply elem_of_map_to_list.
Qed.

Lemma listed_listIncoming (s : Store) (userId id : ObjectId) :
  id ∈ listed (listIncoming userId (reliable s)).1 ↔
    ∃ r, friendrequests s !! id = Some r
         ∧ friendRequestSchema.toUser r = userId
         ∧ friendRequestSchema.status r = pending.
Proof.
  unfold listIncoming. rewrite app_GET_friend_requests, get_friend_requests_1_reliable.
  unfold listed. cbn. rewrite <- list_fmap_compose, list_elem_of_fmap. split.
  - intros ([id' r'] & -> & Hin). cbn.
    apply list_elem_of_filter in Hin as [[Hto Hst] Hin].
    apply elem_of_map_to_list in Hin. by exists r'.
  - intros (r & Hr & Hto & Hst). exists (id, r). split; [done|].
    apply list_elem_of_filter. split; [done|]. by apply elem_of_map_to_list.
Qed.

(** A request that was sent is listed for its receiver: after a
    successful [sendRequest(A,B)], the list of [B]'s incoming requests
    contains the new request. *)
Theorem sent_request_is_listed (s : Store) (newId A B : ObjectId)
    (resp : Response) (w1 : World) :
  sendRequest newId A B (reliable s) = (resp, w1) → code resp = 201 →
  newId ∈ listed (listIncoming B w1).1.
Proof.
  intros Hrun Hcode.
  destruct (sendRequest_reliable_success _ _ _ _ _ _ Hrun Hcode) as (_ & _ & ->).
  apply listed_listIncoming. eexists. cbn. by rewrite lookup_insert_eq.
Qed.

(** A request that was accepted, rejected or cancelled is listed for no
    one: after [resolveRequest] with [accepted] or [rejected] on a stored
    request, or after a successful [cancelRequest], no list of incoming
    requests contains it. *)
Theorem closed_request_is_not_listed
    (s : Store) (requestId userId : ObjectId) (r : friendRequestSchema.doc) :
  friendrequests s !! requestId = Some r →
  (requestId ∉ listed (listIncoming userId
                         (resolveRequest requestId "accepted" (reliable s)).2).1)
  ∧ (requestId ∉ listed (listIncoming userId
                           (resolveRequest requestId "rejected" (reliable s)).2).1)
  ∧ (friendRequestSchema.status r = pending →
     requestId ∉ listed (listIncoming userId
                           (cancelRequest requestId (reliable s)).2).1).
Proof.
  intros Hr. unfold resolveRequest. rewrite !app_PUT_friend_request.
  rewrite (put_friend_request_1_reliable s requestId "accepted" accepted _ Hr)
    by done.
  rewrite (put_friend_request_1_reliable s requestId "rejected" rejected _ Hr)
    by done.
  cbn [snd]. split_and!.
  - rewrite listed_listIncoming. cbn. rewrite lookup_insert_eq.
    by intros (r' & [= <-] & _ & ?).
  - rewrite listed_listIncoming. cbn. rewrite lookup_insert_eq.
    by intros (r' & [= <-] & _ & ?).
  - intros Hst. unfold cancelRequest, app; cbn [omap layers list_omap].
    rewrite delete_friend_request_reliable, Hr, decide_False by (by rewrite Hst; intros []).
    cbn [snd]. rewrite listed_listIncoming. cbn. rewrite lookup_delete_eq.
    by intros (r' & [=] & _).
Qed.

Lemma sid_omap_summary (withImage : bool) (s : Store) (l : list ObjectId) :
  sid <$> omap (User.summary withImage s) l
  = filter (λ f, is_Some (users s !! f)) l.
Proof.
  induction l as [|f l IH]; [done|]. rewrite filter_cons. cbn -[filter].
  unfold User.summary at 1. destruct (users s !! f) as [u|] eqn:Hf; cbn -[filter].
  - rewrite decide_True by done. by rewrite IH.
  - rewrite decide_False by (by intros []). done.
Qed.

Lemma get_friends_reliable (s : Store) (userId : ObjectId) :
  get_friends userId (reliable s) =
  (match users s !! userId with
   | None => mkResponse 404 (JMessage "User not found")
   | Some user =>
       mkResponse 200 (JUsers (omap (User.summary true s) (userSchema.friends user)))
   end, reliable s).
Proof.
  unfold get_friends, try_catch. cbn. by destruct (users s !! userId).
Qed.

(** [GET /api/friends/:userId]: 404 for an unknown user; for a known one,
    200 with the friends in the order of the array, each with its name,
    email and profile image, friends that are no stored users left out. *)
Theorem listFriends_spec (s : Store) (userId : ObjectId) :
  (users s !! userId = None →
   listFriends userId (reliable s)
   = (mkResponse 404 (JMessage "User not found"), reliable s))
  ∧ (∀ user, users s !! userId = Some user →
       ∃ l, listFriends userId (reliable s) = (mkResponse 200 (JUsers l), reliable s)
            ∧ sid <$> l
              = filter (λ f, is_Some (users s !! f)) (userSchema.friends user)
            ∧ ∀ x, x ∈ l →
                ∃ u, users s !! sid x = Some u
                     ∧ x = mkSummary (sid x) (userSchema.name u)
                             (userSchema.email u) (userSchema.profileImage u)).
Proof.
  unfold listFriends, app; cbn [omap layers list_omap].
  rewrite get_friends_reliable. split; [by intros ->|].
  intros user ->. eexists. split; [reflexivity|]. split.
  - apply sid_omap_summary.
  - intros x Hx. apply list_elem_of_omap in Hx as (f & _ & Hx).
    unfold User.summary in Hx. destruct (users s !! f) as [u|] eqn:Hf; [|done].
    cbn in Hx. simplify_eq. cbn. by exists u.
Qed.

Lemma befriend_friends_iff (A B X : ObjectId) (m : gmap ObjectId userSchema.doc)
    (u' : userSchema.doc) :
  befriend A B m !! X = Some u' →
  ∃ u, m !! X = Some u
       ∧ ∀ Y, Y ∈ userSchema.friends u' ↔
              Y ∈ userSchema.friends u ∨ (X = A ∧ Y = B) ∨ (X = B ∧ Y = A).
Proof.
  unfold befriend. rewrite !lookup_alter. intros Hu'.
  repeat case_decide; simplify_eq; destruct (m !! X) as [u|] eqn:HX;
    simplify_eq/=; (eexists; split; [done|]); intros Y;
    rewrite ?elem_of_addToSet; intuition congruence.
Qed.

Lemma unfriend_friends_iff (A B X : ObjectId) (m : gmap ObjectId userSchema.doc)
    (uA uB u' : userSchema.doc) :
  m !! A = Some uA → m !! B = Some uB →
  alter (userSchema.set_friends (filter_ne A (userSchema.friends uB))) B
    (alter (userSchema.set_friends (filter_ne B (userSchema.friends uA))) A m)
    !! X = Some u' →
  ∃ u, m !! X = Some u
       ∧ ∀ Y, Y ∈ userSchema.friends u' ↔
              Y ∈ userSchema.friends u ∧ ¬ (X = A ∧ Y = B) ∧ ¬ (X = B ∧ Y = A).
Proof.
  intros HA HB. rewrite !lookup_alter. intros Hu'.
  repeat case_decide; simplify_eq; destruct (m !! X) as [u|] eqn:HX;
    simplify_eq/=; (eexists; split; [done|]); intros Y;
    rewrite ?elem_of_filter_ne; intuition congruence.
Qed.

(** After an acceptance both users are in each other's list of friends:
    for a stored request from [A] to [B] between existing users,
    [listFriends(A)] then contains [B] and [listFriends(B)] contains
    [A]. *)
Theorem accepted_friends_are_listed
    (s : Store) (requestId A B : ObjectId) (st : RequestStatus)
    (uA uB : userSchema.doc) :
  friendrequests s !! requestId = Some (friendRequestSchema.mk A B st) →
  users s !! A = Some uA → users s !! B = Some uB →
  let w1 := (resolveRequest requestId "accepted" (reliable s)).2 in
  B ∈ sid <$> listed_users (listFriends A w1).1
  ∧ A ∈ sid <$> listed_users (listFriends B w1).1.
Proof.
  intros Hr HA HB. unfold resolveRequest. rewrite app_PUT_friend_request.
  rewrite (put_friend_request_1_reliable s requestId "accepted" accepted _ Hr)
    by done.
  rewrite decide_True by done.
  cbn [snd friendRequestSchema.fromUser friendRequestSchema.toUser].
  unfold listFriends, app; cbn [omap layers list_omap].
  rewrite !get_friends_reliable. cbn [fst users].
  pose proof (befriend_friends_fst A B (users s) uA HA) as HfA.
  pose proof (befriend_friends_snd A B (users s) uB HB) as HfB.
  destruct (befriend A B (users s) !! A) as [uA'|] eqn:HA'; [|done].
  destruct (befriend A B (users s) !! B) as [uB'|] eqn:HB'; [|done].
  cbn in HfA, HfB. simplify_eq. unfold listed_users. cbn [body].
  rewrite !sid_omap_summary, !list_elem_of_filter. cbn [users].
  rewrite HA', HB', HfA, HfB, !elem_of_addToSet. by split_and!; [| left | | left].
Qed.

(** After a removal neither user is in the other's list of friends: for
    distinct existing users, [listFriends(A)] after
    [removeFriendship(A,B)] does not contain [B], and [listFriends(B)]
    does not contain [A]. *)
Theorem removed_friends_are_not_listed
    (s : Store) (A B : ObjectId) (uA uB : userSchema.doc) :
  A ≠ B → users s !! A = Some uA → users s !! B = Some uB →
  let w1 := (removeFriendship A B (reliable s)).2 in
  (B ∉ sid <$> listed_users (listFriends A w1).1)
  ∧ (A ∉ sid <$> listed_users (listFriends B w1).1).
Proof.
  intros Hne HA HB. unfold removeFriendship, app; cbn [omap layers list_omap].
  rewrite (delete_friends_reliable s A B uA uB HA HB). cbn [snd].
  unfold listFriends, app; cbn [omap layers list_omap].
  rewrite !get_friends_reliable. cbn [fst]. unfold with_users. cbn [users].
  rewrite lookup_alter_ne, lookup_alter_eq, HA by done.
  rewrite lookup_alter_eq, lookup_alter_ne, HB by done.
  unfold listed_users. cbn [body fmap option_fmap option_map].
  rewrite !sid_omap_summary, !list_elem_of_filter. cbn.
  rewrite !elem_of_filter_ne. by split; intros [_ [? _]].
Qed.

(** ** Friendship stays mutual while nothing fails *)

(** If friendship is mutual among the stored users, it is so after every
    request on a store that does not fail; for a signup, provided that the
    new [_id] is in no friends array.  (When a save fails between the two
    writes of an acceptance or of a removal it need not be.) *)
Theorem mutual_preserved (s : Store) (newId : ObjectId) (r : Request) :
  mutual s →
  (∀ name email password, r = POST_signup name email password →
     ∀ id u, users s !! id = Some u → newId ∉ userSchema.friends u) →
  mutual (db (app newId r (reliable s)).2).
Proof.
  intros Hm Hfresh.
  destruct r; unfold app; cbn [omap layers list_omap].
  all: unfold post_signup, get_friend_requests_check, post_friend_request_1,
         delete_friend_request, get_friend_requests_1, put_friend_request_1,
         get_friends, delete_friends, try_catch, User.create.
  all: cbn.
  all: repeat (case_match; cbn in *; simplify_eq); try done.
  - intros X Y uX uY. cbn. rewrite !lookup_insert.
    repeat case_decide; simplify_eq.
    + by intros [= <-] [= <-].
    + intros [= <-] _ Hin. by apply elem_of_nil in Hin.
    + intros HX [= <-] Hin. by destruct (Hfresh _ _ _ eq_refl _ _ HX).
    + apply Hm.
  - intros X Y uX' uY' HX HY Hin. cbn in HX, HY.
    destruct (befriend_friends_iff _ _ _ _ _ HX) as (uX & HX0 & HiffX).
    destruct (befriend_friends_iff _ _ _ _ _ HY) as (uY & HY0 & HiffY).
    apply HiffY.
    destruct (proj1 (HiffX Y) Hin) as [Hin'|[[-> ->]|[-> ->]]];
      [left; by eapply Hm|auto..].
  - intros X Y uX' uY' HX HY Hin. cbn in HX, HY.
    match goal with
    | HA : users s !! ?A = Some ?uA, HB : users s !! ?B = Some ?uB |- _ =>
        destruct (unfriend_friends_iff A B X _ uA uB _ HA HB HX) as (uX & HX0 & HiffX);
        destruct (unfriend_friends_iff A B Y _ uA uB _ HA HB HY) as (uY & HY0 & HiffY)
    end.
    destruct (proj1 (HiffX Y) Hin) as (Hin' & Hn1 & Hn2). apply HiffY.
    split; [by eapply Hm|]. split; intros [-> ->]; tauto.
Qed.

(** ** Signup and login *)

Lemma first_match_unique {D} (p : D → bool) (m : gmap ObjectId D) id d :
  m !! id = Some d → p d = true →
  (∀ j d', m !! j = Some d' → p d' = true → j = id) →
  first_match p m = Some (id, d).
Proof.
  intros Hd Hp Huniq. destruct (first_match p m) as [[j d']|] eqn:Hm.
  - apply first_match_Some in Hm as [Hj Hp'].
    specialize (Huniq _ _ Hj Hp'). by simplify_eq.
  - rewrite first_match_None in Hm. specialize (Hm _ _ Hd). congruence.
Qed.

Lemma post_signup_reliable (s : Store) (newId : ObjectId)
    (name email password : string) :
  post_signup newId name email password (reliable s) =
  if first_match (λ u, bool_decide (userSchema.email u = email)) (users s) is Some _
  then (mkResponse 400 (JMessage "User already exists"), reliable s)
  else if bool_decide (name = "" ∨ email = "" ∨ password = "")
  then (mkResponse 500 (JMessage "Error creating user"), reliable s)
  else
    match users s !! newId with
    | Some _ => (mkResponse 500 (JMessage "Error creating user"), reliable s)
    | None =>
        (mkResponse 201
           (JMessageUser "User created successfully" newId
              (User.new name email password)),
         reliable (with_users <[newId := User.new name email password]> s))
    end.
Proof.
  unfold post_signup, try_catch, User.create. cbn.
  repeat (case_match; cbn in *; simplify_eq); done.
Qed.

Lemma post_login_reliable (s : Store) (email password : string) :
  post_login email password (reliable s) =
  (match first_match
           (λ u, bool_decide (userSchema.email u = email
                              ∧ userSchema.password u = password)) (users s) with
   | None => mkResponse 401 (JMessage "Invalid credentials")
   | Some (_id, user) => mkResponse 200 (JMessageUser "Login successful" _id user)
   end, reliable s).
Proof.
  unfold post_login, try_catch. cbn.
  by destruct (first_match _ _) as [[??]|].
Qed.

(** Signup and login fit together: after a successful signup, a login with
    the same email and password answers 200 with the user just created,
    and a login with the same email and any other password answers 401. *)
Theorem signup_then_login (s : Store) (newId : ObjectId)
    (name email password : string) (resp : Response) (w1 : World) :
  post_signup newId name email password (reliable s) = (resp, w1) →
  code resp = 201 →
  post_login email password w1
  = (mkResponse 200
       (JMessageUser "Login successful" newId (User.new name email password)), w1)
  ∧ ∀ other, other ≠ password →
      post_login email other w1
      = (mkResponse 401 (JMessage "Invalid credentials"), w1).
Proof.
  rewrite post_signup_reliable.
  destruct (first_match _ (users s)) as [?|] eqn:Hmail; [by intros [= <- <-]|].
  destruct (bool_decide _); [by intros [= <- <-]|].
  destruct (users s !! newId) eqn:Hfresh; [by intros [= <- <-]|].
  intros [= <- <-] _. rewrite first_match_None in Hmail.
  split.
  - rewrite post_login_reliable. erewrite first_match_unique; [done|cbn; apply lookup_insert_eq| |].
    + by apply bool_decide_eq_true.
    + intros j d'. cbn. rewrite lookup_insert. case_decide; [done|].
      intros Hj [He _]%bool_decide_eq_true.
      specialize (Hmail _ _ Hj). by apply bool_decide_eq_false in Hmail.
  - intros other Hother. rewrite post_login_reliable.
    destruct (first_match _ _) as [[j d']|] eqn:Hm; [|done].
    apply first_match_Some in Hm as [Hj [He Hp]%bool_decide_eq_true].
    cbn in Hj. apply lookup_insert_Some in Hj as [[? <-]|[? Hj]].
    + by cbn in Hp.
    + specialize (Hmail _ _ Hj). by apply bool_decide_eq_false in Hmail.
Qed.

(** What signup refuses: an email some user already has is answered 400
    "User already exists"; a new email with an empty name, email or
    password is answered 500; in both cases nothing is stored. *)
Theorem signup_refusals (s : Store) (newId : ObjectId)
    (name email password : string) :
  ((∃ id u, users s !! id = Some u ∧ userSchema.email u = email) →
   post_signup newId name email password (reliable s)
   = (mkResponse 400 (JMessage "User already exists"), reliable s))
  ∧ ((∀ id u, users s !! id = Some u → userSchema.email u ≠ email) →
     name = "" ∨ email = "" ∨ password = "" →
     post_signup newId name email password (reliable s)
     = (mkResponse 500 (JMessage "Error creating user"), reliable s)).
Proof.
  rewrite post_signup_reliable. split.
  - intros (id & u & Hu & He).
    destruct (first_match _ _) eqn:Hm; [done|].
    rewrite first_match_None in Hm. specialize (Hm _ _ Hu).
    by apply bool_decide_eq_false in Hm.
  - intros Hnew Hempty.
    destruct (first_match _ _) as [[j d]|] eqn:Hm.
    + apply first_match_Some in Hm as [Hj He%bool_decide_eq_true].
      by destruct (Hnew _ _ Hj).
    + by rewrite bool_decide_eq_true_2.
Qed.

(** ** The duplicate registrations *)

(** The second registrations of [POST /api/friend-request],
    [GET /api/friend-requests/:userId] and
    [PUT /api/friend-request/:requestId] (the seventh, eighth and ninth
    route of the file) serve no request: without them every request is
    answered by the same handler. *)
Theorem second_registrations_unreachable (newId : ObjectId) (r : Request) :
  app newId r = dispatch (take 6 layers ++ drop 9 layers) newId r.
Proof. by destruct r. Qed.

(** ** Blinks *)

(** [split] yields one piece more than there are separators. *)
Lemma split_on_length (sep : ascii) (s : string) :
  length (split_on sep s) = S (occurrences sep s).
Proof.
  induction s as [|c s IH]; [done|]. cbn.
  destruct (decide (c = sep)); cbn; [by rewrite IH|].
  destruct (split_on sep s) as [|piece pieces]; [done|]. by cbn in *.
Qed.

Lemma word_check_iff (content : option string) :
  (if content is Some c
   then bool_decide (c ≠ "") && bool_decide (15 < length (split_on " " c))
   else false) = true
  ↔ ∃ c, content = Some c ∧ 15 ≤ occurrences " " c.
Proof.
  destruct content as [c|]; [|split; [done|by intros (? & ? & ?)]].
  rewrite andb_true_iff, !bool_decide_eq_true, split_on_length. split.
  - intros [_ ?]. exists c. split; [done|lia].
  - intros (c' & [= <-] & Hocc). split; [|lia]. intros Hc. rewrite Hc in Hocc. cbn in Hocc. lia.
Qed.

Lemma upload_single_accepted (file : option File) :
  (∀ f, file = Some f → fileFilter f = true) → upload_single file = inl file.
Proof.
  intros Hf. destruct file as [f|]; [|done]. cbn. by rewrite (Hf f).
Qed.


(** A blink that passes the checks is stored as sent: for a known
    [userId], content of at most fourteen spaces and 200 characters (or
    none), an accepted upload (or none) and a new [_id], on a store that
    does not fail, [POST /api/blinks] answers 201 with the new blink and
    adds exactly it: no likes, no comments, created now, [mediaUrl] the
    stored file name, and [mediaType] [none] without a file, [image] for
    an [image/] type and [video] for a [video/] type. *)
Theorem blink_created (now : N) (newId uid : ObjectId)
    (content : option string) (file : option File) (blinks : Blinks) (s : Store) :
  (∀ c, content = Some c → occurrences " " c < 15 ∧ String.length c ≤ 200) →
  (∀ f, file = Some f → fileFilter f = true) →
  blinks !! newId = None →
  ∃ b,
    post_blinks now newId (Some uid) content file blinks (reliable s)
    = (mkBlinkResponse 201 (BBlink newId b), <[newId := b]> blinks, reliable s)
    ∧ blinkSchema.userId b = uid ∧ blinkSchema.content b = content
    ∧ blinkSchema.likes b = 0 ∧ blinkSchema.comments b = []
    ∧ blinkSchema.createdAt b = now
    ∧ blinkSchema.mediaUrl b = filename <$> file
    ∧ (blinkSchema.mediaType b = none ↔ file = None)
    ∧ (blinkSchema.mediaType b = image ↔
         ∃ f, file = Some f ∧ startsWith "image/" (mimetype f) = true)
    ∧ (blinkSchema.mediaType b = video ↔
         ∃ f, file = Some f ∧ startsWith "video/" (mimetype f) = true
              ∧ startsWith "image/" (mimetype f) = false).
Proof.
  intros Hc Hf Hfresh. exists (Blink_new now uid content file). split.
  - unfold post_blinks. rewrite upload_single_accepted by done.
    unfold post_blinks_handler.
    destruct (if content is Some c then _ else false) eqn:Hcheck.
    { apply word_check_iff in Hcheck as (c & -> & ?).
      destruct (Hc c eq_refl). lia. }
    unfold Blink_create.
    destruct (if content is Some c then bool_decide (200 < String.length c) else false)
      eqn:Hlen.
    { destruct content as [c|]; [|done]. apply bool_decide_eq_true in Hlen.
      destruct (Hc c eq_refl). lia. }
    cbn. by rewrite Hfresh.
  - unfold Blink_new. cbn. destruct file as [f|]; cbn.
    + specialize (Hf f eq_refl). unfold fileFilter in Hf.
      destruct (startsWith "image/" (mimetype f)) eqn:Himg; cbn in Hf;
        split_and!; try done; split; try done.
      all: try (by intros (? & [= <-] & ?); congruence).
      all: try (by intros (? & [= <-] & ? & ?); congruence).
      all: try (by intros _; exists f).
    + split_and!; try done; split; try done.
      all: by intros (? & ? & ?).
Qed.


Lemma not_older_total : Total not_older.
Proof. intros x y. unfold not_older. lia. Qed.

Lemma get_blinks_reliable (BACKEND_URL : option string) (blinks : Blinks) (s : Store) :
  get_blinks BACKEND_URL blinks (reliable s)
  = (mkBlinkResponse 200 (BBlinks
       (toObject BACKEND_URL <$>
          ((λ b : ObjectId * blinkSchema.doc,
              (b, User.summary false s (blinkSchema.userId b.2)))
             <$> newest_first (map_to_list blinks)))),
     reliable s).
Proof. done. Qed.

Lemma toObject_entries (BACKEND_URL : option string) (s : Store)
    (l : list (ObjectId * blinkSchema.doc)) :
  (λ o, (blink_id o, blink o)) <$>
    (toObject BACKEND_URL <$>
       ((λ b : ObjectId * blinkSchema.doc,
           (b, User.summary false s (blinkSchema.userId b.2))) <$> l))
  = l.
Proof.
  rewrite <- !list_fmap_compose. rewrite <- (list_fmap_id l) at 2.
  apply list_fmap_ext. by intros i [??] _.
Qed.

(** [GET /api/blinks] on a store that does not fail answers 200 with
    every stored blink exactly once, no other, newest first; each entry
    carries the name and e-mail of its author ([null] for an unknown
    [userId]) and a [mediaDataUrl] exactly when its [mediaUrl] is a
    non-empty name: the backend URL, [/uploads/] and that name. *)
Theorem get_blinks_spec (BACKEND_URL : option string) (blinks : Blinks) (s : Store) :
  ∃ l,
    get_blinks BACKEND_URL blinks (reliable s)
    = (mkBlinkResponse 200 (BBlinks l), reliable s)
    ∧ (λ o, (blink_id o, blink o)) <$> l ≡ₚ map_to_list blinks
    ∧ Sorted (λ x y, (blinkSchema.createdAt (blink y)
                      ≤ blinkSchema.createdAt (blink x))%N) l
    ∧ ∀ o, o ∈ l →
        blink_user o = User.summary false s (blinkSchema.userId (blink o))
        ∧ mediaDataUrl o
          = match blinkSchema.mediaUrl (blink o) with
            | Some mediaUrl =>
                if decide (mediaUrl = "") then None
                else Some (backend_url BACKEND_URL +:+ "/uploads/" +:+ mediaUrl)
            | None => None
            end.
Proof.
  eexists. split; [apply get_blinks_reliable|]. split_and!.
  - rewrite toObject_entries. apply merge_sort_Permutation.
  - rewrite <- list_fmap_compose.
    apply (Sorted_fmap _ not_older); [by intros [??] [??]|].
    apply (@Sorted_merge_sort _ not_older _ not_older_total).
  - intros o Ho. apply list_elem_of_fmap in Ho as ([[id b] u] & -> & Hb).
    apply list_elem_of_fmap in Hb as ([id' b'] & [= -> -> ->] & _). done.
Qed.

(** A created blink is in the feed: when [POST /api/blinks] answers 201
    with blink [b], the next [GET /api/blinks] on a store that does not
    fail lists an entry with the new [_id] and the fields of [b], and
    every blink listed before is still listed. *)
Theorem posted_blink_is_listed (BACKEND_URL : option string) (now : N)
    (newId : ObjectId) (userId : option ObjectId) (content : option string)
    (file : option File) (blinks blinks' : Blinks) (w w' : World) (s : Store)
    (b : blinkSchema.doc) :
  post_blinks now newId userId content file blinks w
  = (mkBlinkResponse 201 (BBlink newId b), blinks', w') →
  ∃ l,
    (get_blinks BACKEND_URL blinks' (reliable s)).1 = mkBlinkResponse 200 (BBlinks l)
    ∧ (∃ o, o ∈ l ∧ blink_id o = newId ∧ blink o = b)
    ∧ ∀ id b0, blinks !! id = Some b0 → ∃ o, o ∈ l ∧ blink_id o = id ∧ blink o = b0.
Proof.
  intros Hpost.
  assert (blinks !! newId = None ∧ blinks' = <[newId := b]> blinks) as [Hfresh ->].
  { revert Hpost. unfold post_blinks, post_blinks_handler, Blink_create.
    repeat (case_match; cbn in *; simplify_eq); try done.
    all: intros; simplify_eq; try done.
    unfold upload_single in *. by repeat case_match. }
  rewrite get_blinks_reliable. eexists. split; [done|].
  assert (∀ id b0, <[newId := b]> blinks !! id = Some b0 →
    ∃ o, o ∈ toObject BACKEND_URL <$>
           ((λ b : ObjectId * blinkSchema.doc,
               (b, User.summary false s (blinkSchema.userId b.2)))
              <$> newest_first (map_to_list (<[newId := b]> blinks)))
         ∧ blink_id o = id ∧ blink o = b0) as Hall.
  { intros id b0 Hb0. apply elem_of_map_to_list in Hb0.
    rewrite <- (merge_sort_Permutation not_older) in Hb0.
    rewrite <- (toObject_entries BACKEND_URL s) in Hb0.
    apply list_elem_of_fmap in Hb0 as (o & [= -> ->] & Ho). by exists o. }
  split.
  - apply Hall. by rewrite lookup_insert_eq.
  - intros id b0 Hb0. apply Hall. rewrite lookup_insert_ne; [done|]. congruence.
Qed.

(** ** Sessions, compositions and blinks at concrete inputs *)

Lemma alice_asked_bob_request :
  friendrequests (db alice_asked_bob) !! 10%N
  = Some (friendRequestSchema.mk alice bob pending).
Proof. vm_compute. reflexivity. Qed.

Lemma send_alice_bob :
  sendRequest 10%N alice bob (reliable (db signed_up))
  = (mkResponse 201 (JMessageRequestId "Friend request sent successfully" 10%N),
     alice_asked_bob).
Proof. vm_compute. reflexivity. Qed.

Lemma session_tidy_witness : tidy empty_store ∧ tidy (db signed_up).
Proof.
  split; [exact tidy_empty|].
  exact (session_tidy
           [ (alice, POST_signup "alice" "alice@example.com" "a-secret");
             (bob, POST_signup "bob" "bob@example.com" "b-secret") ]
           (reliable empty_store) tidy_empty).
Defined.

Lemma session_never_pending_witness :
  (serve [ (alice, POST_signup "alice" "alice@example.com" "a-secret");
           (bob, POST_signup "bob" "bob@example.com" "b-secret");
           (10%N, POST_friend_request (Some alice) (Some bob));
           (11%N, GET_friend_requests_check alice bob) ]
     (reliable empty_store)).1 !! 3 = Some (mkResponse 200 (JStatus "none"))
  ∧ body (mkResponse 200 (JStatus "none")) ≠ JStatus "pending".
Proof.
  assert (Hresp :
    (serve [ (alice, POST_signup "alice" "alice@example.com" "a-secret");
             (bob, POST_signup "bob" "bob@example.com" "b-secret");
             (10%N, POST_friend_request (Some alice) (Some bob));
             (11%N, GET_friend_requests_check alice bob) ]
       (reliable empty_store)).1 !! 3 = Some (mkResponse 200 (JStatus "none")))
    by (vm_compute; reflexivity).
  split; [exact Hresp|].
  exact (session_never_pending _ (reliable empty_store) _ tidy_empty
           (list_elem_of_lookup_2 _ _ _ Hresp)).
Defined.

Lemma session_registered_witness :
  registered empty_store ∧ registered (db signed_up).
Proof.
  split; [exact registered_empty|].
  exact (session_registered
           [ (alice, POST_signup "alice" "alice@example.com" "a-secret");
             (bob, POST_signup "bob" "bob@example.com" "b-secret") ]
           (reliable empty_store) registered_empty).
Defined.

Lemma session_keeps_users_witness :
  ∃ u', users (db (serve [ (12%N, PUT_friend_request 10%N None None "accepted");
                           (13%N, DELETE_friends alice bob) ]
                     alice_asked_bob).2) !! alice = Some u'
        ∧ userSchema.name u' = "alice"
        ∧ userSchema.email u' = "alice@example.com"
        ∧ userSchema.password u' = "a-secret"
        ∧ userSchema.profileImage u' = None.
Proof.
  apply (session_keeps_users _ alice_asked_bob alice alice_doc).
  vm_compute. reflexivity.
Defined.

Lemma mutual_no_friends (s : Store) :
  (∀ id u, users s !! id = Some u → userSchema.friends u = []) → mutual s.
Proof.
  intros Hno A B uA uB HA _ Hin. rewrite (Hno _ _ HA) in Hin.
  by apply elem_of_nil in Hin.
Qed.

Lemma alice_asked_bob_no_friends (id : ObjectId) (u : userSchema.doc) :
  users (db alice_asked_bob) !! id = Some u → userSchema.friends u = [].
Proof.
  replace (users (db alice_asked_bob))
    with ({[alice := alice_doc; bob := bob_doc]} : gmap ObjectId userSchema.doc)
    by (vm_compute; reflexivity).
  intros [[_ <-]|[_ Hu]]%lookup_insert_Some; [done|].
  by apply lookup_singleton_Some in Hu as [_ <-].
Qed.

Lemma mutual_preserved_witness :
  mutual (db alice_asked_bob)
  ∧ mutual (db (app 12%N (PUT_friend_request 10%N None None "accepted")
                  (reliable (db alice_asked_bob))).2).
Proof.
  assert (Hm : mutual (db alice_asked_bob))
    by exact (mutual_no_friends _ alice_asked_bob_no_friends).
  split; [exact Hm|].
  apply (mutual_preserved (db alice_asked_bob) 12%N
           (PUT_friend_request 10%N None None "accepted") Hm).
  discriminate.
Defined.

Lemma send_then_cancel_restores_witness :
  sendRequest 10%N alice bob (reliable (db signed_up))
  = (mkResponse 201 (JMessageRequestId "Friend request sent successfully" 10%N),
     alice_asked_bob)
  ∧ cancelRequest 10%N alice_asked_bob
    = (mkResponse 200 (JMessage "Friend request cancelled"),
       reliable (db signed_up)).
Proof.
  split; [exact send_alice_bob|].
  exact (send_then_cancel_restores (db signed_up) 10%N alice bob _ _
           send_alice_bob eq_refl).
Defined.

Lemma accept_then_remove_restores_users_witness :
  removeFriendship alice bob
    (resolveRequest 10%N "accepted" (reliable (db alice_asked_bob))).2
  = (mkResponse 200 (JMessage "Friend removed successfully"),
     reliable (mkStore (users (db alice_asked_bob))
                 (<[10%N := friendRequestSchema.mk alice bob accepted]>
                    (friendrequests (db alice_asked_bob))))).
Proof.
  apply (accept_then_remove_restores_users (db alice_asked_bob) 10%N alice bob
           pending alice_doc bob_doc alice_asked_bob_request alice_ne_bob).
  - vm_compute. reflexivity.
  - vm_compute. reflexivity.
  - cbn. apply not_elem_of_nil.
  - cbn. apply not_elem_of_nil.
Defined.

Lemma removeFriendship_idempotent_witness :
  removeFriendship alice bob (removeFriendship alice bob (reliable (db befriended))).2
  = (mkResponse 200 (JMessage "Friend removed successfully"),
     (removeFriendship alice bob (reliable (db befriended))).2).
Proof.
  apply (removeFriendship_idempotent (db befriended) alice bob
           (userSchema.set_friends [bob] alice_doc)
           (userSchema.set_friends [alice] bob_doc) alice_ne_bob).
  - vm_compute. reflexivity.
  - vm_compute. reflexivity.
Defined.

Lemma accept_idempotent_witness :
  resolveRequest 10%N "accepted"
    (resolveRequest 10%N "accepted" (reliable (db alice_asked_bob))).2
  = (mkResponse 200 (JMessage "Friend request accepted"),
     (resolveRequest 10%N "accepted" (reliable (db alice_asked_bob))).2).
Proof.
  exact (accept_idempotent (db alice_asked_bob) 10%N _ alice_asked_bob_request).
Defined.

Lemma resolution_is_not_final_witness :
  ∃ s2,
    resolveRequest 10%N "accepted"
      (resolveRequest 10%N "rejected" (reliable (db alice_asked_bob))).2
    = (mkResponse 200 (JMessage "Friend request accepted"), reliable s2)
    ∧ friendrequests s2 !! 10%N = Some (friendRequestSchema.mk alice bob accepted)
    ∧ (queryStatus alice bob (reliable s2)).1 = mkResponse 200 (JStatus "friends").
Proof.
  apply (resolution_is_not_final (db alice_asked_bob) 10%N alice bob pending
           alice_doc bob_doc alice_asked_bob_request).
  - vm_compute. reflexivity.
  - vm_compute. reflexivity.
Defined.

Lemma resolveRequest_invalid_status_witness :
  enum_status "maybe" = None
  ∧ db (resolveRequest 10%N "maybe" alice_asked_bob).2 = db alice_asked_bob
  ∧ (resolveRequest 10%N "maybe" alice_asked_bob).1
    = mkResponse 500 (JMessage "Error updating friend request").
Proof.
  assert (Hst : enum_status "maybe" = None) by reflexivity.
  split; [exact Hst|].
  destruct (resolveRequest_invalid_status 10%N "maybe" alice_asked_bob Hst)
    as [Hdb Hresp].
  split; [exact Hdb|]. apply Hresp; [reflexivity|].
  exists (friendRequestSchema.mk alice bob pending). exact alice_asked_bob_request.
Defined.

Lemma sent_request_is_listed_witness :
  10%N ∈ listed (listIncoming bob alice_asked_bob).1.
Proof.
  exact (sent_request_is_listed (db signed_up) 10%N alice bob _ _
           send_alice_bob eq_refl).
Defined.

Lemma closed_request_is_not_listed_witness :
  10%N ∉ listed (listIncoming bob
                   (resolveRequest 10%N "accepted" (reliable (db alice_asked_bob))).2).1.
Proof.
  exact (proj1 (closed_request_is_not_listed (db alice_asked_bob) 10%N bob _
                  alice_asked_bob_request)).
Defined.

Lemma accepted_friends_are_listed_witness :
  bob ∈ sid <$> listed_users
          (listFriends alice
             (resolveRequest 10%N "accepted" (reliable (db alice_asked_bob))).2).1.
Proof.
  apply (accepted_friends_are_listed (db alice_asked_bob) 10%N alice bob pending
           alice_doc bob_doc alice_asked_bob_request).
  - vm_compute. reflexivity.
  - vm_compute. reflexivity.
Defined.

Lemma removed_friends_are_not_listed_witness :
  bob ∉ sid <$> listed_users
          (listFriends alice
             (removeFriendship alice bob (reliable (db befriended))).2).1.
Proof.
  apply (removed_friends_are_not_listed (db befriended) alice bob
           (userSchema.set_friends [bob] alice_doc)
           (userSchema.set_friends [alice] bob_doc) alice_ne_bob).
  - vm_compute. reflexivity.
  - vm_compute. reflexivity.
Defined.

Lemma signup_then_login_witness :
  ∃ w1,
    post_signup alice "alice" "alice@example.com" "a-secret" (reliable empty_store)
    = (mkResponse 201 (JMessageUser "User created successfully" alice alice_doc), w1)
    ∧ post_login "alice@example.com" "a-secret" w1
      = (mkResponse 200 (JMessageUser "Login successful" alice alice_doc), w1)
    ∧ post_login "alice@example.com" "b-secret" w1
      = (mkResponse 401 (JMessage "Invalid credentials"), w1).
Proof.
  eexists.
  assert (Hrun :
    post_signup alice "alice" "alice@example.com" "a-secret" (reliable empty_store)
    = (mkResponse 201 (JMessageUser "User created successfully" alice alice_doc),
       reliable (mkStore {[alice := alice_doc]} ∅))) by (vm_compute; reflexivity).
  split; [exact Hrun|].
  destruct (signup_then_login empty_store alice "alice" "alice@example.com"
              "a-secret" _ _ Hrun eq_refl) as [Hin Hout].
  split; [exact Hin|]. apply Hout. discriminate.
Defined.


Lemma blink_created_witness :
  ∃ b,
    post_blinks 5%N 20%N (Some alice) (Some "hello world")
      (Some (mkFile "video/mp4" "media-1.mp4")) ∅ (reliable (db signed_up))
    = (mkBlinkResponse 201 (BBlink 20%N b), {[20%N := b]}, reliable (db signed_up))
    ∧ blinkSchema.mediaUrl b = Some "media-1.mp4"
    ∧ blinkSchema.mediaType b = video.
Proof.
  destruct (blink_created 5%N 20%N alice (Some "hello world")
              (Some (mkFile "video/mp4" "media-1.mp4")) ∅ (db signed_up))
    as (b & Hrun & _ & _ & _ & _ & _ & Hurl & _ & _ & Hvideo).
  - intros c [= <-]. split; vm_compute; lia.
  - intros f [= <-]. reflexivity.
  - apply lookup_empty.
  - exists b. split; [exact Hrun|]. split; [exact Hurl|].
    apply Hvideo. eexists. split; [reflexivity|]. split; reflexivity.
Defined.

Lemma posted_blink_is_listed_witness :
  ∃ l,
    (get_blinks None {[20%N := Blink_new 5%N alice (Some "hello world") None]}
       (reliable (db signed_up))).1
    = mkBlinkResponse 200 (BBlinks l)
    ∧ ∃ o, o ∈ l ∧ blink_id o = 20%N
           ∧ blink o = Blink_new 5%N alice (Some "hello world") None.
Proof.
  destruct (posted_blink_is_listed None 5%N 20%N (Some alice) (Some "hello world")
              None ∅ {[20%N := Blink_new 5%N alice (Some "hello world") None]}
              signed_up signed_up (db signed_up)
              (Blink_new 5%N alice (Some "hello world") None))
    as (l & Hrun & Hnew & _).
  - vm_compute. reflexivity.
  - exists l. split; [exact Hrun|exact Hnew].
Defined.
